(** * Setu-AI: sensor-to-health classification, alerting and fan-out

    A shallow embedding of the decision logic of the repository:
    - the MPU backend (express server on port 8000): [computePredictions],
      the [POST /data] handler with its e-mail cooldown, [GET /latest];
    - the React dashboard: [computePredictions] again and the rolling
      per-channel histories of [updateHistory];
    - the bridge server (port 3001): the WebSocket fan-out of
      [latestSensorData], the alert check, the simulation tick,
      [findArduinoPort] and the history endpoint;
    - the prediction panel and the graphs of the dashboard, its polling
      of the backend, and the simulator that feeds the backend.

    JavaScript numbers are IEEE-754 binary64 values; they are modelled by
    [spec_float] with precision 53 and maximal exponent 1024, whose
    operations round to nearest, ties to even, as the language requires. *)

From Stdlib Require Import ZArith Lia List Bool String.
From Stdlib Require Import Floats.SpecFloat.
From stdpp Require Import gmap strings list.

#[local] Set Warnings "-register-all".
#[local] Open Scope Z_scope.

(** ** JavaScript numbers *)

Module JSNumber.

Definition prec : Z := 53.
Definition emax : Z := 1024.

Abbreviation number := spec_float.

Definition NaN : number := S754_nan.
Definition pzero : number := S754_zero false.

Definition mul : number -> number -> number := SFmul prec emax.
Definition add : number -> number -> number := SFadd prec emax.
Definition sub : number -> number -> number := SFsub prec emax.
Definition div : number -> number -> number := SFdiv prec emax.
Definition sqrt : number -> number := SFsqrt prec emax.
Definition ltb : number -> number -> bool := SFltb.
Definition leb : number -> number -> bool := SFleb.
Definition valid : number -> bool := valid_binary prec emax.

(** The number denoted by an integer literal. *)
Definition of_Z (n : Z) : number := binary_normalize prec emax n 0 false.

(** The number denoted by the decimal literal [n / d], [d] a power of
    ten and both below [2^53]: the binary64 value nearest to the
    quotient. *)
Definition lit (n d : Z) : number := div (of_Z n) (of_Z d).

Definition is_nan (x : number) : bool :=
  match x with S754_nan => true | _ => false end.

Definition is_finite (x : number) : bool :=
  match x with S754_zero _ | S754_finite _ _ _ => true | _ => false end.

(** [Math.min] of two arguments: NaN if either is NaN, and -0 is
    smaller than +0. *)
Definition Math_min (x y : number) : number :=
  match x, y with
  | S754_nan, _ | _, S754_nan => S754_nan
  | S754_zero sx, S754_zero sy => S754_zero (sx || sy)
  | _, _ => if ltb y x then y else x
  end.

(** [x.toFixed(3)]: the text is kept in structured form.  [FxDec neg n]
    stands for the digits of [n] with the decimal point before the last
    three, preceded by a minus sign when [neg]. *)
Inductive fixed3 :=
  | FxNaN
  | FxInfinity (neg : bool)
  | FxDec (neg : bool) (n : Z)
  | FxToString (x : number).

(** The integer [n] for which [n / 1000] is nearest to [m * 2^e]; of
    two such integers the larger one. *)
Definition nearest_thousandth (m : positive) (e : Z) : Z :=
  match e with
  | Zneg k => (2000 * Zpos m + 2 ^ Zpos k) / 2 ^ (Zpos k + 1)
  | _ => 1000 * Zpos m * 2 ^ e
  end.

(** [10^21 <= m * 2^e]. *)
Definition at_least_1e21 (m : positive) (e : Z) : bool :=
  match e with
  | Zneg k => 10 ^ 21 * 2 ^ Zpos k <=? Zpos m
  | _ => 10 ^ 21 <=? Zpos m * 2 ^ e
  end.

Definition toFixed3 (x : number) : fixed3 :=
  match x with
  | S754_nan => FxNaN
  | S754_infinity s => FxInfinity s
  | S754_zero _ => FxDec false 0
  | S754_finite s m e =>
      if at_least_1e21 m e then FxToString x
      else FxDec s (nearest_thousandth m e)
  end.

(** [parseFloat] on the texts [toFixed] produces: the binary64 value
    nearest to the decimal read. *)
Definition parseFloat (t : fixed3) : number :=
  match t with
  | FxNaN => S754_nan
  | FxInfinity s => S754_infinity s
  | FxToString x => x
  | FxDec s n =>
      match n with
      | Zpos p => div (S754_finite s p 0) (S754_finite false 1000 0)
      | _ => S754_zero s
      end
  end.

Definition c1_0 : number := Eval vm_compute in of_Z 1.
Definition c5_0 : number := Eval vm_compute in of_Z 5.
Definition c0_8 : number := Eval vm_compute in lit 8 10.
Definition c0_2 : number := Eval vm_compute in lit 2 10.
Definition c0_15 : number := Eval vm_compute in lit 15 100.
Definition c0_3 : number := Eval vm_compute in lit 3 10.
Definition c0_6 : number := Eval vm_compute in lit 6 10.
Definition c0_01 : number := Eval vm_compute in lit 1 100.
Definition c0_09 : number := Eval vm_compute in lit 9 100.
Definition c0_08 : number := Eval vm_compute in lit 8 100.

End JSNumber.

Import JSNumber.

(** ** JavaScript values, as far as a parsed JSON body can hold them *)

Inductive value :=
  | VUndefined
  | VNull
  | VBool (b : bool)
  | VNum (x : number)
  | VStr (s : string)
  | VObj (o : gmap string value).

Abbreviation object := (gmap string value).

(** Property read [o.k]: an absent property reads as [undefined]. *)
Definition get (o : object) (k : string) : value :=
  match o !! k with
  | Some v => v
  | None => VUndefined
  end.

Definition ToBoolean (v : value) : bool :=
  match v with
  | VUndefined | VNull => false
  | VBool b => b
  | VNum (S754_zero _) | VNum S754_nan => false
  | VNum _ => true
  | VStr s => negb (String.eqb s "")
  | VObj _ => true
  end.

(** [a || b] *)
Definition js_or (a b : value) : value := if ToBoolean a then a else b.

(** The conversion of a string to a number ([StringToNumber] of the
    language) is left abstract: every result below holds for any such
    conversion. *)
Class StringConversion := StringToNumber : string -> number.

(** ** The classifier

    [computePredictions] has the same text in the backend and in the
    dashboard; it is embedded once. *)

Inductive Condition := normal | minor | moderate | severe.

#[global] Instance Condition_eq_dec : EqDecision Condition.
Proof. solve_decision. Defined.

Record PredictionResult := {
  degradation_score : number;
  condition : Condition;
  forecast_30d : number;
  confidence : number;
}.

Section Classifier.

Context `{StringConversion}.

(** A nested plain object converts through its default text, which is
    no numeric literal.  An object that has a [toString] property of
    its own has no default text and the conversion throws; the function
    below is the conversion of the values that [converts] (see there)
    accepts. *)
Definition ToNumber (v : value) : number :=
  match v with
  | VUndefined => NaN
  | VNull => pzero
  | VBool true => c1_0
  | VBool false => pzero
  | VNum x => x
  | VStr s => StringToNumber s
  | VObj _ => NaN
  end.

(** [a * b] *)
Definition js_mul (a b : value) : number := mul (ToNumber a) (ToNumber b).

Definition accel_mag (data : object) : number :=
  let ax := get data "ax" in
  let ay := get data "ay" in
  let az := get data "az" in
  sqrt (add (add (js_mul ax ax) (js_mul ay ay)) (js_mul az az)).

Definition gyro_mag (data : object) : number :=
  let gx := get data "gx" in
  let gy := get data "gy" in
  let gz := get data "gz" in
  sqrt (add (add (js_mul gx gx) (js_mul gy gy)) (js_mul gz gz)).

Definition rawDegradation (data : object) : number :=
  div (add (mul (accel_mag data) c0_8) (mul (gyro_mag data) c0_2)) c5_0.

Definition degradation (data : object) : number :=
  Math_min c1_0 (rawDegradation data).

(** The chain of [<] comparisons that picks the tier. *)
Definition tier (degradation : number) : Condition :=
  if ltb degradation c0_15 then normal
  else if ltb degradation c0_3 then minor
  else if ltb degradation c0_6 then moderate
  else severe.

(** [rnd1] and [rnd2] are the two draws of [Math.random()], in the
    order the function makes them. *)
Definition computePredictions (rnd1 rnd2 : number) (data : object)
  : PredictionResult :=
  let degradation := degradation data in
  let condition := tier degradation in
  let forecast_30d :=
    Math_min c1_0 (add (add degradation c0_01) (mul rnd1 c0_09)) in
  let confidence := sub c1_0 (mul rnd2 c0_08) in
  {| degradation_score := parseFloat (toFixed3 degradation);
     condition := condition;
     forecast_30d := parseFloat (toFixed3 forecast_30d);
     confidence := parseFloat (toFixed3 confidence) |}.

End Classifier.

(** ** The MPU backend: [POST /data] and [GET /latest] *)

Module Backend.

Definition ALERT_COOLDOWN_MS : Z := 60000.

(** The two module-level variables of the server. [latestData] starts
    as [null], [lastAlertTime] as [0]. *)
Record State := {
  latestData : option object;
  lastAlertTime : Z;
}.

Definition initial : State := {| latestData := None; lastAlertTime := 0 |}.

(** What the e-mail interpolates into its body. *)
Record MailOptions := {
  mail_device_id : value;
  mail_degradation_score : number;
  mail_forecast_30d : number;
  mail_confidence : number;
  mail_accelerometer : value * value * value;
  mail_gyroscope : value * value * value;
}.

Inductive LogLine :=
  | DataReceived (c : Condition)
  | EmailAlertSent
  | EmailError.

Inductive Response :=
  | BadRequest (error : string)
  | Ok (prediction : PredictionResult).

(** The handler either answers at once or is suspended at
    [await transporter.sendMail(mailOptions)], the mail being on its
    way. *)
Inductive Progress :=
  | Replied (r : Response)
  | AwaitingMail (m : MailOptions) (prediction : PredictionResult).

Definition condition_text (c : Condition) : string :=
  match c with
  | normal => "normal"
  | minor => "minor"
  | moderate => "moderate"
  | severe => "severe"
  end.

Definition is_severe (c : Condition) : bool :=
  String.eqb (condition_text c) "severe".

(** The prediction as the object stored under [latestData.prediction]. *)
Definition prediction_value (p : PredictionResult) : value :=
  VObj (<["degradation_score" := VNum (degradation_score p)]>
       (<["condition" := VStr (condition_text (condition p))]>
       (<["forecast_30d" := VNum (forecast_30d p)]>
       (<["confidence" := VNum (confidence p)]> ∅)))).

Definition mailOptions (data : object) (p : PredictionResult) : MailOptions :=
  {| mail_device_id := js_or (get data "device_id") (VStr "N/A");
     mail_degradation_score := degradation_score p;
     mail_forecast_30d := forecast_30d p;
     mail_confidence := confidence p;
     mail_accelerometer := (get data "ax", get data "ay", get data "az");
     mail_gyroscope := (get data "gx", get data "gy", get data "gz") |}.

(** The validation guard at the head of the handler. *)
Definition incomplete (data : object) : bool :=
  negb (ToBoolean (get data "ax"))
  || negb (ToBoolean (get data "ay"))
  || negb (ToBoolean (get data "az")).

Section Handlers.

Context `{StringConversion}.

(** [POST /data] from its entry to its first suspension or reply.
    [now] is what [Date.now()] returns, [rnd1] and [rnd2] the draws
    of [Math.random()].  This is the handler on bodies whose axes and
    device id convert to numbers and to text without throwing, as
    those of a reading do. *)
Definition post_data_begin (now : Z) (rnd1 rnd2 : number) (data : object)
    (st : State) : State * list LogLine * Progress :=
  if incomplete data then
    (st, [], Replied (BadRequest "Incomplete MPU data"))
  else
    let prediction := computePredictions rnd1 rnd2 data in
    let st1 := {| latestData := Some (<["prediction" := prediction_value prediction]> data);
                  lastAlertTime := lastAlertTime st |} in
    let log := [DataReceived (condition prediction)] in
    if is_severe (condition prediction) then
      if now - lastAlertTime st1 >? ALERT_COOLDOWN_MS then
        ({| latestData := latestData st1; lastAlertTime := now |},
         log,
         AwaitingMail (mailOptions data prediction) prediction)
      else (st1, log, Replied (Ok prediction))
    else (st1, log, Replied (Ok prediction)).

(** The rest of the handler once [sendMail] has settled:
    [delivered] tells whether the promise was fulfilled. *)
Definition post_data_resume (delivered : bool) (prediction : PredictionResult)
    : list LogLine * Response :=
  ([if delivered then EmailAlertSent else EmailError], Ok prediction).

(** One request of [POST /data]. *)
Record Ingest := {
  now : Z;
  rnd1 : number;
  rnd2 : number;
  delivered : bool;
  body : object;
}.

(** What one request leaves behind: the log lines, the mails handed
    to the transporter and the answer. *)
Record Outcome := {
  log : list LogLine;
  mails : list MailOptions;
  response : Response;
}.

(** A request run to completion. *)
Definition post_data (r : Ingest) (st : State) : State * Outcome :=
  match post_data_begin (now r) (rnd1 r) (rnd2 r) (body r) st with
  | (st', l, Replied resp) =>
      (st', {| log := l; mails := []; response := resp |})
  | (st', l, AwaitingMail m p) =>
      let '(l', resp) := post_data_resume (delivered r) p in
      (st', {| log := l ++ l'; mails := [m]; response := resp |})
  end.

(** A sequence of requests, in arrival order; the result lists the
    times at which a mail was handed to the transporter.  The handler
    touches the state before its [await] only, so requests that overlap
    at the [await] leave the same states and the same mails as requests
    run one after the other. *)
Fixpoint post_all (rs : list Ingest) (st : State) : State * list Z :=
  match rs with
  | [] => (st, [])
  | r :: rs' =>
      let '(st', o) := post_data r st in
      let '(st'', ts) := post_all rs' st' in
      (st'', (if mails o is [] then [] else [now r]) ++ ts)
  end.

End Handlers.

(** [GET /latest] *)
Definition get_latest (st : State) : object :=
  match latestData st with
  | None => {[ "message" := VStr "No data yet" ]}
  | Some d => d
  end.

End Backend.

(** ** The dashboard: rolling histories *)

Module Dashboard.

Definition MAX_POINTS : Z := 50.

(** [l.slice(start)] *)
Definition slice {A} (start : Z) (l : list A) : list A :=
  let len := Z.of_nat (length l) in
  let k := if start <? 0 then Z.max (len + start) 0 else Z.min start len in
  drop (Z.to_nat k) l.

(** [[...prev, v].slice(-MAX_POINTS)] *)
Definition push_point {A} (v : A) (prev : list A) : list A :=
  slice (- MAX_POINTS) (prev ++ [v]).

Record Histories := {
  axHistory : list value;
  ayHistory : list value;
  azHistory : list value;
  gxHistory : list value;
  gyHistory : list value;
  gzHistory : list value;
  tempHistory : list value;
  humidityHistory : list value;
}.

Definition no_history : Histories :=
  {| axHistory := []; ayHistory := []; azHistory := [];
     gxHistory := []; gyHistory := []; gzHistory := [];
     tempHistory := []; humidityHistory := [] |}.

Definition updateHistory (data : object) (h : Histories) : Histories :=
  {| axHistory := push_point (get data "ax") (axHistory h);
     ayHistory := push_point (get data "ay") (ayHistory h);
     azHistory := push_point (get data "az") (azHistory h);
     gxHistory := push_point (get data "gx") (gxHistory h);
     gyHistory := push_point (get data "gy") (gyHistory h);
     gzHistory := push_point (get data "gz") (gzHistory h);
     tempHistory := push_point (get data "temperature_c") (tempHistory h);
     humidityHistory := push_point (get data "humidity_percent") (humidityHistory h) |}.

(** The histories after the readings [ds] were fetched, oldest first. *)
Definition updateHistory_all (ds : list object) (h : Histories) : Histories :=
  fold_left (fun h d => updateHistory d h) ds h.

(** The channels, each with the property it reads and the history it
    feeds. *)
Inductive Channel := Ax | Ay | Az | Gx | Gy | Gz | Temp | Humidity.

Definition channel_key (c : Channel) : string :=
  match c with
  | Ax => "ax" | Ay => "ay" | Az => "az"
  | Gx => "gx" | Gy => "gy" | Gz => "gz"
  | Temp => "temperature_c" | Humidity => "humidity_percent"
  end.

Definition history (c : Channel) : Histories -> list value :=
  match c with
  | Ax => axHistory | Ay => ayHistory | Az => azHistory
  | Gx => gxHistory | Gy => gyHistory | Gz => gzHistory
  | Temp => tempHistory | Humidity => humidityHistory
  end.

End Dashboard.

(** ** The bridge server: WebSocket fan-out of the latest reading *)

Module Bridge.

Inductive ReadyState := CONNECTING | OPEN | CLOSING | CLOSED.

(** A socket of [wss.clients] with the messages sent to it so far,
    oldest first.  A message is the object that was serialised. *)
Record Client := {
  readyState : ReadyState;
  received : list object;
}.

Record State := {
  latestSensorData : object;
  isCriticalAlertSent : bool;
  clients : list Client;
}.

(** The value [latestSensorData] holds when the server starts at time
    [boot]. *)
Definition initialSensorData (boot : Z) : object :=
  <["infrastructure_id" := VStr "BRIDGE_001"]>
  (<["location" := VStr "Delhi Metro Bridge"]>
  (<["timestamp" := VNum (of_Z boot)]>
  (<["status" := VStr "normal"]>
  (<["sensors" := VObj
       (<["strain" := VNum (of_Z 800)]>
       (<["vibration" := VNum (lit 12 10)]>
       (<["temperature" := VNum (of_Z 25)]>
       (<["accelerometer" := VObj
            (<["x" := VNum pzero]> (<["y" := VNum pzero]> (<["z" := VNum pzero]> ∅)))]>
        ∅))))]>
  (<["system" := VObj
       (<["uptime" := VNum pzero]>
       (<["free_memory" := VNum (of_Z 1500)]>
       (<["battery_level" := VNum (of_Z 95)]> ∅)))]>
   ∅))))).

Definition initial (boot : Z) : State :=
  {| latestSensorData := initialSensorData boot;
     isCriticalAlertSent := false;
     clients := [] |}.

(** [v === s] for a string literal [s] *)
Definition is_string (v : value) (s : string) : bool :=
  match v with
  | VStr t => String.eqb t s
  | _ => false
  end.

Definition send (data : object) (c : Client) : Client :=
  {| readyState := readyState c; received := received c ++ [data] |}.

Definition is_open (c : Client) : bool :=
  match readyState c with OPEN => true | _ => false end.

Definition broadcastToClients (data : object) (cs : list Client) : list Client :=
  map (fun client => if is_open client then send data client else client) cs.

(** [checkAndTriggerAlert]: the new value of the flag, and whether
    [sendCriticalAlert] was called. *)
Definition checkAndTriggerAlert (data : object) (flag : bool) : bool * bool :=
  if is_string (get data "status") "norm" && negb flag then (flag, true)
  else if negb (is_string (get data "status") "critical") && flag then (false, false)
  else (flag, false).

(** Store, check, broadcast: the common tail of the serial handler and
    of the simulation tick.  The object a tick assembles from the clock
    and its random draws is taken as given. *)
Definition publish (data : object) (st : State) : State :=
  {| latestSensorData := data;
     isCriticalAlertSent := fst (checkAndTriggerAlert data (isCriticalAlertSent st));
     clients := broadcastToClients data (clients st) |}.

(** A parsed line of the serial port; [now] is [Date.now()]. *)
Definition accepts (jsonData : object) : bool :=
  ToBoolean (get jsonData "sensors") && ToBoolean (get jsonData "timestamp").

Definition stamped (now : Z) (jsonData : object) : object :=
  <["timestamp" := VNum (of_Z now)]> jsonData.

Definition on_serial_data (now : Z) (jsonData : object) (st : State) : State :=
  if accepts jsonData then publish (stamped now jsonData) st else st.

(** [wss.on('connection')]: the new socket is open and is sent the
    latest value at once. *)
Definition on_connection (st : State) : State :=
  {| latestSensorData := latestSensorData st;
     isCriticalAlertSent := isCriticalAlertSent st;
     clients := clients st ++
       [send (latestSensorData st) {| readyState := OPEN; received := [] |}] |}.

Inductive Event :=
  | SerialData (now : Z) (jsonData : object)
  | SimulationTick (data : object)
  | MailSettled (delivered : bool)
  | Connection
  | Closed (i : nat).

Definition step (st : State) (e : Event) : State :=
  match e with
  | SerialData now jsonData => on_serial_data now jsonData st
  | SimulationTick data => publish data st
  | MailSettled delivered =>
      {| latestSensorData := latestSensorData st;
         isCriticalAlertSent := delivered || isCriticalAlertSent st;
         clients := clients st |}
  | Connection => on_connection st
  | Closed i =>
      {| latestSensorData := latestSensorData st;
         isCriticalAlertSent := isCriticalAlertSent st;
         clients := take i (clients st) ++ drop (S i) (clients st) |}
  end.

Definition run (es : list Event) (st : State) : State := fold_left step es st.

(** The values published by a sequence of events, oldest first. *)
Fixpoint published (es : list Event) : list object :=
  match es with
  | [] => []
  | SerialData now jsonData :: es' =>
      (if accepts jsonData then [stamped now jsonData] else []) ++ published es'
  | SimulationTick data :: es' => data :: published es'
  | _ :: es' => published es'
  end.

End Bridge.

(** ** Vocabulary of the statements *)

Section Vocabulary.

Import Backend.
Context `{StringConversion}.

Definition accepted_state (r : Ingest) (st : State) (t : Z) : State :=
  {| latestData :=
       Some (<["prediction" :=
                 prediction_value (computePredictions (rnd1 r) (rnd2 r) (body r))]> (body r));
     lastAlertTime := t |}.

(** A reading the guard lets through and the classifier calls severe. *)
Definition severe_ingest (r : Ingest) : Prop :=
  incomplete (body r) = false
  /\ condition (computePredictions (rnd1 r) (rnd2 r) (body r)) = severe.


(** Consecutive alert times lie more than a cool-down apart. *)
Fixpoint spaced (last : Z) (ts : list Z) : Prop :=
  match ts with
  | [] => True
  | t :: ts' => t - last > ALERT_COOLDOWN_MS /\ spaced t ts'
  end.

End Vocabulary.

(** [m * 2^e <= 1], written without fractions. *)
Definition le_one (m : positive) (e : Z) : Prop :=
  (0 <= e /\ Zpos m * 2 ^ e <= 1) \/ (e < 0 /\ Zpos m <= 2 ^ (- e)).

(** A number that is not negative: a zero, a positive finite number
    whose mantissa fits the precision, or plus infinity. *)
Definition nonneg (x : number) : Prop :=
  match x with
  | S754_zero _ => True
  | S754_infinity s => s = false
  | S754_finite s m _ => s = false /\ Zpos m < 2 ^ 53
  | S754_nan => False
  end.

(** A positive finite number whose mantissa fits the precision. *)
Definition positive_finite (c : number) : Prop :=
  match c with S754_finite false m _ => Zpos m < 2 ^ 53 | _ => False end.

(** A number whose value lies between zero and one. *)
Definition unit_value (x : number) : Prop :=
  match x with
  | S754_zero _ => True
  | S754_finite s m e => s = false /\ le_one m e
  | _ => False
  end.

(** [0 <= x && x <= 1] *)
Definition in_unit_interval (x : number) : bool := leb pzero x && leb x c1_0.

(** What [Math.random()] returns: a binary64 value [r] with [0 <= r < 1]. *)
Definition random_draw (r : number) : Prop :=
  valid r = true /\ leb pzero r = true /\ ltb r c1_0 = true.

(** The six axis properties, each holding a finite number. *)
Definition axis_keys : list string := ["ax"; "ay"; "az"; "gx"; "gy"; "gz"].

Definition finite_axes (data : object) : Prop :=
  Forall (fun k => exists x, data !! k = Some (VNum x) /\ is_finite x = true) axis_keys.

(** A value whose conversion to a number or to text does not throw:
    any value but an object with a [toString] property of its own.  A
    parsed JSON body holds no functions, so that such a property is not
    callable and hides the inherited one. *)
Definition converts (v : value) : bool :=
  match v with
  | VObj o => match o !! "toString" with Some _ => false | None => true end
  | _ => true
  end.

Definition is_object (v : value) : bool :=
  match v with VObj _ => true | _ => false end.

(** The axes of a body on which [computePredictions] does not throw. *)
Definition convertible_axes (data : object) : Prop :=
  Forall (fun k => converts (get data k) = true) axis_keys.

(** ** Sample inputs

    [randomMPUData] of the simulator, the random draws being given. *)

Definition randomMPUData (ax ay az gx gy gz temperature_c humidity_percent : number)
  : object :=
  <["device_id" := VStr "SIM_DEVICE_1"]>
  (<["ax" := VNum ax]> (<["ay" := VNum ay]> (<["az" := VNum az]>
  (<["gx" := VNum gx]> (<["gy" := VNum gy]> (<["gz" := VNum gz]>
  (<["temperature_c" := VNum temperature_c]>
  (<["humidity_percent" := VNum humidity_percent]> ∅)))))))).

(** A conversion that reads no string as a number; the sample inputs hold
    no strings in numeric positions. *)
Definition no_numeric_strings : StringConversion := fun _ => NaN.

(** A structure shaken hard, one that moves a little, one at rest. *)
Definition shaking : object :=
  randomMPUData (of_Z 5) (of_Z 5) (of_Z 5) (of_Z 1) (of_Z 1) (of_Z 1) (of_Z 25) (of_Z 50).

(** Axis values whose squares exceed the range of the format. *)
Definition violent : object :=
  randomMPUData (of_Z (10 ^ 300)) (of_Z (10 ^ 200)) (of_Z 5) (of_Z (- 10 ^ 300)) (of_Z 1)
    (of_Z 1) (of_Z 25) (of_Z 50).

Definition moving : object :=
  randomMPUData (of_Z 1) (of_Z 1) (of_Z 1) (of_Z 1) (of_Z 1) (of_Z 1) (of_Z 25) (of_Z 50).

Definition at_rest : object :=
  randomMPUData pzero pzero (of_Z 1) pzero pzero pzero (of_Z 25) (of_Z 50).

(** A reading whose degradation is the threshold 0.15 itself:
    [0.9375 * 0.8 / 5]. *)
Definition on_the_boundary : object :=
  randomMPUData (lit 9375 10000) pzero pzero pzero pzero pzero (of_Z 25) (of_Z 50).

(** A request carrying [data] at time [t]; both random draws are one
    half and the mail, if any, is delivered. *)
Definition request_at (t : Z) (data : object) : Backend.Ingest :=
  {| Backend.now := t; Backend.rnd1 := lit 5 10; Backend.rnd2 := lit 5 10;
     Backend.delivered := true; Backend.body := data |}.

(** A time of day as [Date.now()] reports it, in ms since the epoch. *)
Definition some_day : Z := 1700000000000.

(** The [i]-th value a simulation tick publishes, reduced to two
    properties. *)
Definition tick_data (i : Z) : object :=
  <["timestamp" := VNum (of_Z (some_day + 2000 * i))]>
  (<["status" := VStr "normal"]> ∅).

(** Sixty readings as the dashboard fetches them, [ax] counting up. *)
Definition sixty_readings : list object :=
  map (fun i => randomMPUData (of_Z i) (of_Z 1) (of_Z 1) (of_Z 1) (of_Z 1) (of_Z 1)
                  (of_Z 25) (of_Z 50))
      (seqZ 1 60).

(** ** Further parts of the code *)

(** [Math.round]: the integer nearest to [x], of two equally near ones
    the larger; a result of zero keeps the sign of [x]. *)
Definition Math_round (x : number) : number :=
  match x with
  | S754_finite s m (Zneg k) =>
      let n := (2 * (if s then Zneg m else Zpos m) + 2 ^ Zpos k) / 2 ^ (Zpos k + 1) in
      if n =? 0 then S754_zero s else of_Z n
  | _ => x
  end.

(** [a > b] *)
Definition gtb (a b : number) : bool := ltb b a.

(** *** The dashboard: the prediction panel *)

Module Panel.

Definition score (prediction : PredictionResult) : number :=
  mul (degradation_score prediction) (of_Z 100).

(** The width of the risk meter, in per cent. *)
Definition meterPct (prediction : PredictionResult) : number :=
  Math_round (score prediction).

End Panel.

(** *** The dashboard: the graphs *)

Module Graph.

Definition displayData {A} (data : list A) (currentValue : A) : list A :=
  if (length data =? 0)%nat then [currentValue] else data.

(** The abscissa of the point drawn for the entry at [index], in the
    [0 0 100 100] view box. *)
Definition x (index : nat) : number :=
  mul (div (of_Z (Z.of_nat index)) (sub (of_Z Dashboard.MAX_POINTS) (of_Z 1))) (of_Z 100).

(** The abscissas of the polyline, in drawing order. *)
Definition xs {A} (data : list A) (currentValue : A) : list number :=
  imap (fun index _ => x index) (displayData data currentValue).

End Graph.

(** *** The simulator: [randomMPUData] from its eight draws and
    [sendData] *)

Module Simulator.

Record Draws := {
  d_ax : number; d_ay : number; d_az : number;
  d_gx : number; d_gy : number; d_gz : number;
  d_temperature : number; d_humidity : number;
}.

(** The object [randomMPUData()] returns when [Math.random()] yields
    the draws [d], in the order of the calls. *)
Definition reading (d : Draws) : object :=
  randomMPUData
    (mul (d_ax d) (of_Z 5)) (mul (d_ay d) (of_Z 5)) (mul (d_az d) (of_Z 5))
    (mul (d_gx d) (of_Z 2)) (mul (d_gy d) (of_Z 2)) (mul (d_gz d) (of_Z 2))
    (add (of_Z 20) (mul (d_temperature d) (of_Z 10)))
    (add (of_Z 40) (mul (d_humidity d) (of_Z 30))).

(** The request [sendData] posts; the remaining fields are what the
    backend draws and observes while it serves it. *)
Definition sendData (d : Draws) (now : Z) (rnd1 rnd2 : number) (delivered : bool)
  : Backend.Ingest :=
  {| Backend.now := now; Backend.rnd1 := rnd1; Backend.rnd2 := rnd2;
     Backend.delivered := delivered; Backend.body := reading d |}.

End Simulator.

(** *** The bridge server: the simulation tick *)

Module Simulation.

(** The three quantities a tick derives from the clock and its draws. *)
Record Sample := {
  strain : number;
  vibration : number;
  temperature : number;
}.

Definition status (s : Sample) : string :=
  if gtb (strain s) (of_Z 2000) || gtb (vibration s) (of_Z 10)
     || gtb (temperature s) (of_Z 60)
  then "critical"
  else if gtb (strain s) (of_Z 1000) || gtb (vibration s) (of_Z 5)
          || gtb (temperature s) (of_Z 45)
  then "warning"
  else "normal".

(** What else a tick reads: [now] is [Date.now()], [accelerometer] and
    [system] are the two nested objects built from further draws. *)
Record Tick := {
  now : Z;
  sample : Sample;
  accelerometer : object;
  system : object;
}.

(** The object a tick stores in [latestSensorData]. *)
Definition reading (t : Tick) : object :=
  let s := sample t in
  <["infrastructure_id" := VStr "BRIDGE_001"]>
  (<["location" := VStr "Delhi Metro Bridge (Simulated)"]>
  (<["timestamp" := VNum (of_Z (now t))]>
  (<["status" := VStr (status s)]>
  (<["sensors" := VObj
       (<["strain" := VNum (div (Math_round (mul (strain s) (of_Z 6))) (of_Z 10))]>
       (<["vibration" := VNum (div (Math_round (mul (vibration s) (of_Z 1000))) (of_Z 10))]>
       (<["temperature" := VNum (div (Math_round (mul (temperature s) (of_Z 20))) (of_Z 10))]>
       (<["accelerometer" := VObj (accelerometer t)]> ∅))))]>
  (<["system" := VObj (system t)]> ∅))))).

(** A tick as an event of the server. *)
Definition event (t : Tick) : Bridge.Event := Bridge.SimulationTick (reading t).

End Simulation.

(** *** The bridge server: calls of [sendCriticalAlert] *)

Module Alerts.

Import Bridge.

(** Whether handling the event calls [sendCriticalAlert]. *)
Definition calls (st : State) (e : Event) : bool :=
  match e with
  | SerialData now jsonData =>
      accepts jsonData
      && snd (checkAndTriggerAlert (stamped now jsonData) (isCriticalAlertSent st))
  | SimulationTick data => snd (checkAndTriggerAlert data (isCriticalAlertSent st))
  | _ => false
  end.

(** The number of calls of [sendCriticalAlert] while the events are
    handled. *)
Fixpoint alert_calls (es : list Event) (st : State) : nat :=
  match es with
  | [] => 0
  | e :: es' => ((if calls st e then 1 else 0) + alert_calls es' (step st e))%nat
  end.

End Alerts.

(** *** The bridge server: [findArduinoPort] *)

(** [String.prototype.toLowerCase] is left abstract. *)
Class LowerCase := toLowerCase : string -> string.

Module SerialPorts.

(** An entry of [SerialPort.list()]; [manufacturer] may be undefined. *)
Record PortInfo := {
  path : string;
  manufacturer : option string;
}.

Definition ARDUINO_PORTS : list string :=
  ["COM3"; "COM4"; "COM5"; "COM6"; "COM7"; "COM8"].

(** [s.includes(needle)] *)
Fixpoint includes (s needle : string) : bool :=
  String.prefix needle s
  || match s with
     | EmptyString => false
     | String _ s' => includes s' needle
     end.

Section Detection.

Context `{LowerCase}.

(** The predicate of [ports.filter]. *)
Definition arduino_like (port : PortInfo) : bool :=
  match manufacturer port with
  | None => false
  | Some m =>
      negb (String.eqb m "")
      && (includes (toLowerCase m) "arduino"
          || includes (toLowerCase m) "ch340"
          || includes (toLowerCase m) "ftdi"
          || includes (toLowerCase m) "silicon labs")
  end.

(** The fallback loop over the common port names. *)
Fixpoint fallback (candidates : list string) (ports : list PortInfo) : option string :=
  match candidates with
  | [] => None
  | portPath :: rest =>
      match List.find (fun p => String.eqb (path p) portPath) ports with
      | Some _ => Some portPath
      | None => fallback rest ports
      end
  end.

(** [listing] is the result of [SerialPort.list()], [None] when the
    call fails; the result [None] stands for [null]. *)
Definition findArduinoPort (listing : option (list PortInfo)) : option string :=
  match listing with
  | None => None
  | Some ports =>
      match List.filter arduino_like ports with
      | port :: _ => Some (path port)
      | [] => fallback ARDUINO_PORTS ports
      end
  end.

End Detection.

End SerialPorts.

(** *** The bridge server: [GET /api/sensor-data/history] *)

Module History.

Record Point := {
  timestamp : Z;
  strain : number;
  vibration : number;
  temperature : number;
}.

(** The entry built in round [i] of the loop; [draw k] is the [k]-th
    result of [Math.random()] during the request, counted from 0. *)
Definition point (now : Z) (draw : nat -> number) (i : nat) : Point :=
  {| timestamp := now - Z.of_nat i * 60000;
     strain := add (of_Z 800) (mul (draw (3 * i)%nat) (of_Z 400));
     vibration := add (of_Z 1) (mul (draw (3 * i + 1)%nat) (of_Z 3));
     temperature := add (of_Z 22) (mul (draw (3 * i + 2)%nat) (of_Z 8)) |}.

(** The loop, each round putting its entry in front ([unshift]). *)
Definition sensor_history (now : Z) (draw : nat -> number) : list Point :=
  fold_left (fun history i => point now draw i :: history) (seq 0 20) [].

End History.

(** The tiers in the order of their severity. *)
Definition rank (c : Condition) : nat :=
  match c with
  | normal => 0
  | minor => 1
  | moderate => 2
  | severe => 3
  end.

(** Equality of two numbers as data. *)
Definition same_number (x y : number) : bool :=
  match x, y with
  | S754_zero a, S754_zero b | S754_infinity a, S754_infinity b => Bool.eqb a b
  | S754_nan, S754_nan => true
  | S754_finite a m e, S754_finite b m' e' => Bool.eqb a b && Pos.eqb m m' && Z.eqb e e'
  | _, _ => false
  end.

(** One of the integers 0, 1, ..., 100. *)
Definition is_percentage (x : number) : bool :=
  existsb (fun k => same_number x (of_Z k)) (seqZ 0 101).

(** A lower-casing of the letters A to Z, for the sample port lists
    below, whose names hold no other capitals. *)
Fixpoint lower_letters (s : string) : string :=
  match s with
  | EmptyString => EmptyString
  | String c s' =>
      let n := Ascii.nat_of_ascii c in
      String (if (65 <=? n)%nat && (n <=? 90)%nat then Ascii.ascii_of_nat (n + 32) else c)
             (lower_letters s')
  end.

Definition letters_only : LowerCase := lower_letters.

(** A machine with a Bluetooth port on COM3, a port of unknown make on
    COM9 and an Arduino clone on COM12. *)
Definition three_ports : list SerialPorts.PortInfo :=
  [ {| SerialPorts.path := "COM3"; SerialPorts.manufacturer := Some "Microsoft" |};
    {| SerialPorts.path := "COM9"; SerialPorts.manufacturer := None |};
    {| SerialPorts.path := "COM12"; SerialPorts.manufacturer := Some "wch.cn (CH340)" |} ].

(** Draws of one half throughout. *)
Definition even_draws : Simulator.Draws :=
  {| Simulator.d_ax := lit 5 10; Simulator.d_ay := lit 5 10; Simulator.d_az := lit 5 10;
     Simulator.d_gx := lit 5 10; Simulator.d_gy := lit 5 10; Simulator.d_gz := lit 5 10;
     Simulator.d_temperature := lit 5 10; Simulator.d_humidity := lit 5 10 |}.

(** *** From the backend to the dashboard

    What [JSON.parse] reads back from the text [JSON.stringify] writes
    for a value: a number that is not finite becomes [null], a zero
    loses its sign, a property holding [undefined] is left out. *)
Fixpoint JSON_copy (v : value) : value :=
  match v with
  | VNum (S754_zero _) => VNum pzero
  | VNum (S754_finite _ _ _) => v
  | VNum _ => VNull
  | VObj o =>
      VObj (omap (fun w => match w with
                           | VUndefined => None
                           | _ => Some (JSON_copy w)
                           end) o)
  | _ => v
  end.

Module Polling.

(** [await response.json()] for the answer of [GET /latest]. *)
Definition response_json (st : Backend.State) : object :=
  match JSON_copy (VObj (Backend.get_latest st)) with
  | VObj data => data
  | _ => ∅
  end.

Inductive ConnectionStatus := connecting | connected | disconnected.

(** The state of [MPUDataDashboard]. *)
Record View := {
  sensorData : object;
  predictionResult : PredictionResult;
  connectionStatus : ConnectionStatus;
  error : option string;
  retryAttempt : Z;
  histories : Dashboard.Histories;
}.

Definition initialData : object :=
  <["ax" := VNum pzero]> (<["ay" := VNum pzero]> (<["az" := VNum pzero]>
  (<["gx" := VNum pzero]> (<["gy" := VNum pzero]> (<["gz" := VNum pzero]>
  (<["temperature_c" := VNum pzero]> (<["humidity_percent" := VNum pzero]> ∅))))))).

(** The state the setters called by [fetchMpuData] ask for when the
    request succeeds. *)
Definition requested (st : Backend.State) (v : View) : View :=
  let data := response_json st in
  {| sensorData := data;
     predictionResult := predictionResult v;
     connectionStatus := connected;
     error := None;
     retryAttempt := 0;
     histories := Dashboard.updateHistory data (histories v) |}.

(** [typeof v === "number"] *)
Definition is_number (v : value) : bool :=
  match v with VNum _ => true | _ => false end.

Definition channels : list Dashboard.Channel :=
  [Dashboard.Ax; Dashboard.Ay; Dashboard.Az; Dashboard.Gx; Dashboard.Gy; Dashboard.Gz;
   Dashboard.Temp; Dashboard.Humidity].

(** Whether [SensorGraph] renders: [currentValue.toFixed(2)] asks for a
    number, and [Math.abs] and the subtraction convert every entry
    drawn. *)
Definition graph_renders (data : list value) (currentValue : value) : bool :=
  is_number currentValue && forallb converts (Graph.displayData data currentValue).

(** Whether the component renders in the state [v]: its eight graphs
    must, and the device id shown in the footer must not be a plain
    object, which is no valid child of an element. *)
Definition renders (v : View) : bool :=
  forallb (fun c => graph_renders (Dashboard.history c (histories v))
                      (get (sensorData v) (Dashboard.channel_key c)))
    channels
  && negb (is_object (js_or (get (sensorData v) "device_id")
                        (VStr "esp32-bridge-1 (default)"))).

(** [fetchMpuData] when the request succeeds, together with the render
    its state updates cause: [None] when that render throws, which
    takes the component off the page. *)
Definition fetchMpuData (st : Backend.State) (v : View) : option View :=
  let v' := requested st v in
  if renders v' then Some v' else None.

Section Prediction.

Context `{StringConversion}.

(** The state of the component when it is mounted; [rnd1] and [rnd2]
    are the draws of its first call of [computePredictions]. *)
Definition initial (rnd1 rnd2 : number) : View :=
  {| sensorData := initialData;
     predictionResult := computePredictions rnd1 rnd2 initialData;
     connectionStatus := connecting;
     error := None;
     retryAttempt := 0;
     histories := Dashboard.no_history |}.

(** The prediction effect, which runs when [sensorData] or
    [connectionStatus] has changed; [rnd1] and [rnd2] are the draws of
    its call of [computePredictions]. *)
Definition prediction_effect (rnd1 rnd2 : number) (v : View) : View :=
  match connectionStatus v with
  | connected =>
      {| sensorData := sensorData v;
         predictionResult := computePredictions rnd1 rnd2 (sensorData v);
         connectionStatus := connectionStatus v;
         error := error v;
         retryAttempt := retryAttempt v;
         histories := histories v |}
  | _ => v
  end.

(** A successful poll followed by the effect it triggers, which runs
    only once the render has gone through. *)
Definition poll (rnd1 rnd2 : number) (st : Backend.State) (v : View) : option View :=
  prediction_effect rnd1 rnd2 <$> fetchMpuData st v.

End Prediction.

End Polling.

(** The eight values the graphs show, each a finite number. *)
Definition finite_channels (data : object) : Prop :=
  Forall (fun c => exists x, data !! Dashboard.channel_key c = Some (VNum x)
                             /\ is_finite x = true) Polling.channels.

(** Histories every entry of which can be drawn. *)
Definition drawable (h : Dashboard.Histories) : Prop :=
  Forall (fun c => Forall (fun e => converts e = true) (Dashboard.history c h))
    Polling.channels.

(** * Properties *)

(** ** Rolling histories *)

Section RollingHistory.

Import Dashboard.
Context {A : Type}.
Implicit Types (l prev : list A) (v : A).

Lemma slice_last l :
  slice (- MAX_POINTS) l = drop (length l - 50)%nat l.
Proof.
  unfold slice. change (- MAX_POINTS <? 0) with true. cbv iota.
  unfold MAX_POINTS. f_equal. lia.
Qed.

Lemma slice_last_length l : (length (slice (- MAX_POINTS) l) <= 50)%nat.
Proof. rewrite slice_last, length_drop. lia. Qed.

Lemma slice_last_app l1 l2 :
  slice (- MAX_POINTS) (slice (- MAX_POINTS) l1 ++ l2) = slice (- MAX_POINTS) (l1 ++ l2).
Proof.
  rewrite !slice_last, !length_app, length_drop.
  destruct (decide (length l1 <= 50)%nat) as [Hle|Hgt].
  - replace (length l1 - 50)%nat with 0%nat by lia. rewrite Nat.sub_0_r. reflexivity.
  - pose proof (take_drop (length l1 - 50)%nat l1) as Hsplit.
    pose proof (length_take l1 (length l1 - 50)%nat) as Hlen.
    set (a := take (length l1 - 50)%nat l1) in *.
    set (b := drop (length l1 - 50)%nat l1) in *.
    pose proof (length_drop l1 (length l1 - 50)%nat) as Hlen'.
    fold b in Hlen'. clearbody a b. subst l1.
    rewrite length_app in *. rewrite <- app_assoc.
    rewrite (drop_app_ge a) by lia. f_equal. lia.
Qed.

Lemma push_point_all vs prev :
  fold_left (fun h v => push_point v h) vs (slice (- MAX_POINTS) prev)
  = slice (- MAX_POINTS) (prev ++ vs).
Proof.
  revert prev. induction vs as [|v vs IH]; intros prev; simpl.
  - by rewrite app_nil_r.
  - unfold push_point at 2. rewrite slice_last_app, IH, <- app_assoc. reflexivity.
Qed.

Lemma push_point_all_ne v vs prev :
  fold_left (fun h v => push_point v h) (v :: vs) prev
  = slice (- MAX_POINTS) (prev ++ v :: vs).
Proof.
  simpl. unfold push_point at 2. rewrite push_point_all, <- app_assoc. reflexivity.
Qed.

End RollingHistory.

Lemma history_updateHistory c d h :
  Dashboard.history c (Dashboard.updateHistory d h)
  = Dashboard.push_point (get d (Dashboard.channel_key c)) (Dashboard.history c h).
Proof. destruct c; reflexivity. Qed.

Lemma history_updateHistory_all c ds h :
  Dashboard.history c (Dashboard.updateHistory_all ds h)
  = fold_left (fun h v => Dashboard.push_point v h)
      ((fun d => get d (Dashboard.channel_key c)) <$> ds) (Dashboard.history c h).
Proof.
  unfold Dashboard.updateHistory_all. revert h.
  induction ds as [|d ds IH]; intros h; simpl; [reflexivity|].
  rewrite IH, history_updateHistory. reflexivity.
Qed.

(** ** Last elements *)

Lemma last_cons_default {A} (x : A) l d d' :
  List.last (x :: l) d = List.last (x :: l) d'.
Proof.
  revert x. induction l as [|y l IH]; intros x; [done|].
  change (List.last (y :: l) d = List.last (y :: l) d'). apply IH.
Qed.

(** ** The request handler *)

Section BackendFacts.

Import Backend.
Context `{StringConversion}.

Lemma is_severe_spec c : is_severe c = true <-> c = severe.
Proof. destruct c; cbv; split; congruence. Qed.

Lemma post_data_rejected r st :
  incomplete (body r) = true ->
  post_data r st
  = (st, {| log := []; mails := []; response := BadRequest "Incomplete MPU data" |}).
Proof. intros Hi. unfold post_data, post_data_begin. rewrite Hi. reflexivity. Qed.

Lemma post_data_fires r st :
  severe_ingest r ->
  now r - lastAlertTime st > ALERT_COOLDOWN_MS ->
  post_data r st
  = (accepted_state r st (now r),
     {| log := [DataReceived severe; if delivered r then EmailAlertSent else EmailError];
        mails := [mailOptions (body r) (computePredictions (rnd1 r) (rnd2 r) (body r))];
        response := Ok (computePredictions (rnd1 r) (rnd2 r) (body r)) |}).
Proof.
  intros [Hi Hs] Ht. unfold post_data, post_data_begin. rewrite Hi, Hs.
  cbn [is_severe lastAlertTime latestData].
  replace (is_severe severe) with true by reflexivity.
  replace (now r - lastAlertTime st >? ALERT_COOLDOWN_MS) with true
    by (symmetry; rewrite Z.gtb_ltb; apply Z.ltb_lt; lia).
  reflexivity.
Qed.

Lemma post_data_quiet r st :
  incomplete (body r) = false ->
  condition (computePredictions (rnd1 r) (rnd2 r) (body r)) <> severe
  \/ now r - lastAlertTime st <= ALERT_COOLDOWN_MS ->
  post_data r st
  = (accepted_state r st (lastAlertTime st),
     {| log := [DataReceived (condition (computePredictions (rnd1 r) (rnd2 r) (body r)))];
        mails := [];
        response := Ok (computePredictions (rnd1 r) (rnd2 r) (body r)) |}).
Proof.
  intros Hi Hq. unfold post_data, post_data_begin. rewrite Hi.
  cbn [lastAlertTime latestData].
  destruct (is_severe _) eqn:Hs; [|reflexivity].
  apply is_severe_spec in Hs.
  destruct Hq as [Hq|Hq]; [congruence|].
  replace (now r - lastAlertTime st >? ALERT_COOLDOWN_MS) with false
    by (symmetry; rewrite Z.gtb_ltb; apply Z.ltb_ge; lia).
  reflexivity.
Qed.

(** The three ways a request can go. *)
Lemma post_data_cases r st :
  (post_data r st = (st, {| log := []; mails := []; response := BadRequest "Incomplete MPU data" |})
   /\ incomplete (body r) = true)
  \/ (exists o, post_data r st = (accepted_state r st (lastAlertTime st), o)
                /\ mails o = [] /\ incomplete (body r) = false)
  \/ (exists o m, post_data r st = (accepted_state r st (now r), o)
                /\ mails o = [m] /\ now r - lastAlertTime st > ALERT_COOLDOWN_MS
                /\ severe_ingest r).
Proof.
  destruct (incomplete (body r)) eqn:Hi.
  - left. split; [by apply post_data_rejected|done].
  - right.
    destruct (decide (condition (computePredictions (rnd1 r) (rnd2 r) (body r)) = severe)) as [Hs|Hs].
    + destruct (decide (now r - lastAlertTime st > ALERT_COOLDOWN_MS)) as [Ht|Ht].
      * right. eexists _, _. rewrite post_data_fires by done. by repeat split.
      * left. eexists. rewrite post_data_quiet by (done || right; lia). by repeat split.
    + left. eexists. rewrite post_data_quiet by (done || by left). by repeat split.
Qed.

Lemma post_all_spaced rs st :
  spaced (lastAlertTime st) (snd (post_all rs st))
  /\ lastAlertTime (fst (post_all rs st))
     = List.last (snd (post_all rs st)) (lastAlertTime st).
Proof.
  revert st. induction rs as [|r rs IH]; intros st; simpl; [done|].
  destruct (post_data_cases r st) as [[-> _]|[(o & -> & Hm & _)|(o & m & -> & Hm & Ht & _)]].
  - specialize (IH st). destruct (post_all rs st) as [st'' ts]. simpl in *. exact IH.
  - specialize (IH (accepted_state r st (lastAlertTime st))).
    destruct (post_all rs _) as [st'' ts]. rewrite Hm. simpl in *. exact IH.
  - specialize (IH (accepted_state r st (now r))).
    destruct (post_all rs _) as [st'' ts]. rewrite Hm. simpl in *.
    destruct IH as [IH1 IH2]. split; [by split|].
    rewrite IH2. destruct ts as [|t ts]; [done|]. apply (last_cons_default t ts).
Qed.



End BackendFacts.

Section BackendBursts.

Import Backend.
Context `{StringConversion}.

Lemma post_all_app rs rs' st :
  post_all (rs ++ rs') st
  = (fst (post_all rs' (fst (post_all rs st))),
     snd (post_all rs st) ++ snd (post_all rs' (fst (post_all rs st)))).
Proof.
  revert st. induction rs as [|r rs IH]; intros st; simpl.
  - by destruct (post_all rs' st).
  - destruct (post_data r st) as [st' o]. rewrite IH.
    destruct (post_all rs st') as [st'' ts]. simpl.
    by rewrite app_assoc.
Qed.


(** The comparison with the cool-down is strict: on the dot of 60000 ms
    after the last alert nothing is sent yet. *)
Lemma post_data_on_the_dot r st :
  incomplete (body r) = false ->
  now r - lastAlertTime st = ALERT_COOLDOWN_MS ->
  mails (snd (post_data r st)) = [].
Proof. intros Hi Ht. by rewrite post_data_quiet by (done || right; lia). Qed.

End BackendBursts.

Section BackendAccepted.

Import Backend.
Context `{StringConversion}.

Lemma post_data_accepted r st :
  incomplete (body r) = false ->
  response (snd (post_data r st))
  = Ok (computePredictions (rnd1 r) (rnd2 r) (body r))
  /\ latestData (fst (post_data r st))
     = Some (<["prediction" :=
                 prediction_value (computePredictions (rnd1 r) (rnd2 r) (body r))]> (body r)).
Proof.
  intros Hi.
  destruct (post_data_cases r st) as [[_ ?]|[(o & Hp & _)|(o & m & Hp & _ & Ht & Hs)]];
    [congruence| |].
  - destruct (decide (condition (computePredictions (rnd1 r) (rnd2 r) (body r)) = severe))
      as [Hs|Hs].
    + destruct (decide (now r - lastAlertTime st > ALERT_COOLDOWN_MS)) as [Ht|Ht].
      * by rewrite post_data_fires.
      * by rewrite post_data_quiet by (done || right; lia).
    + by rewrite post_data_quiet by (done || by left).
  - by rewrite post_data_fires.
Qed.

Lemma post_all_rejected rs st :
  Forall (fun r => incomplete (body r) = true) rs -> post_all rs st = (st, []).
Proof.
  induction 1 as [|r rs Hr _ IH]; simpl; [done|].
  by rewrite post_data_rejected, IH.
Qed.

End BackendAccepted.

Section NaNFacts.

Lemma add_nan_r x : add x NaN = NaN.
Proof. by destruct x. Qed.

Lemma add_nan_l x : add NaN x = NaN.
Proof. reflexivity. Qed.

Context `{StringConversion}.

Lemma js_mul_missing (data : object) k :
  data !! k = None -> js_mul (get data k) (get data k) = NaN.
Proof. unfold get. by intros ->. Qed.

Lemma gyro_mag_missing (data : object) :
  data !! "gx" = None \/ data !! "gy" = None \/ data !! "gz" = None ->
  gyro_mag data = NaN.
Proof.
  unfold gyro_mag. intros [Hm|[Hm|Hm]]; rewrite (js_mul_missing _ _ Hm);
    by rewrite ?add_nan_l, ?add_nan_r.
Qed.

Lemma degradation_missing (data : object) :
  gyro_mag data = NaN -> degradation data = NaN.
Proof.
  intros Hg. unfold degradation, rawDegradation. rewrite Hg.
  change (mul NaN c0_2) with NaN. by rewrite add_nan_r.
Qed.

End NaNFacts.

Section BridgeFacts.

Import Bridge.

Lemma run_app es es' st : run (es ++ es') st = run es' (run es st).
Proof. apply fold_left_app. Qed.

Lemma run_latest es st :
  latestSensorData (run es st) = List.last (published es) (latestSensorData st).
Proof.
  revert st. induction es as [|e es IH]; intros st; [done|].
  change (run (e :: es) st) with (run es (step st e)). rewrite IH.
  destruct e as [now jsonData|data|delivered| |i]; simpl; try done.
  - unfold on_serial_data. destruct (accepts jsonData); simpl; [|done].
    destruct (published es) as [|x l]; [done|apply (last_cons_default x l)].
  - destruct (published es) as [|x l]; [done|apply (last_cons_default x l)].
Qed.

Lemma connection_receives_latest st :
  List.last (clients (on_connection st)) {| readyState := CLOSED; received := [] |}
  = {| readyState := OPEN; received := [latestSensorData st] |}.
Proof. unfold on_connection. simpl. by rewrite last_last. Qed.

(** The serial handler stamps what it publishes with the server's
    clock, and drops a line that carries no timestamp of its own. *)
Lemma on_serial_data_stamps now jsonData st :
  accepts jsonData = true ->
  latestSensorData (on_serial_data now jsonData st) !! "timestamp"
  = Some (VNum (of_Z now)).
Proof.
  intros Ha. unfold on_serial_data. rewrite Ha. simpl. unfold stamped.
  by rewrite lookup_insert_eq.
Qed.

Lemma on_serial_data_drops now jsonData st :
  jsonData !! "timestamp" = None -> on_serial_data now jsonData st = st.
Proof.
  intros Hn. unfold on_serial_data, accepts, get. rewrite Hn.
  by rewrite andb_false_r.
Qed.

End BridgeFacts.

(** ** Comparisons and tiers *)

Section Comparison.

Lemma SFcompare_antisym x y :
  SFcompare y x = CompOpp <$> SFcompare x y.
Proof.
  destruct x as [sx|sx| |sx mx ex], y as [sy|sy| |sy my ey];
    try destruct sx; try destruct sy; try reflexivity; simpl; f_equal;
    rewrite (Z.compare_antisym ex ey); destruct (ex ?= ey); simpl; try reflexivity;
    change (Pos.compare_cont Eq ?a ?b) with (Pos.compare a b);
    rewrite (Pos.compare_antisym mx my); by rewrite ?CompOpp_involutive.
Qed.

Lemma ltb_false_leb x y :
  is_nan x = false -> is_nan y = false -> ltb x y = false <-> leb y x = true.
Proof.
  intros Hx Hy. unfold ltb, leb, SFltb, SFleb. rewrite (SFcompare_antisym x y).
  destruct (SFcompare x y) as [[]|] eqn:Hc; simpl; try (split; congruence).
  destruct x, y; try discriminate; simpl in Hc;
    repeat match type of Hc with context [if ?s then _ else _] => destruct s end;
    discriminate.
Qed.

(** Below a positive number, below every larger one. *)
Lemma ltb_trans_finite d m1 e1 m2 e2 :
  e1 < e2 \/ (e1 = e2 /\ (m1 < m2)%positive) ->
  ltb d (S754_finite false m1 e1) = true ->
  ltb d (S754_finite false m2 e2) = true.
Proof.
  intros Hlt. unfold ltb, SFltb.
  destruct d as [s|s| |s m e]; try destruct s; simpl; try done.
  change (Pos.compare_cont Eq ?a ?b) with (Pos.compare a b).
  destruct (Z.compare_spec e e1), (Z.compare_spec e e2),
    (Pos.compare_spec m m1), (Pos.compare_spec m m2); try done; lia.
Qed.

End Comparison.

Lemma tier_cases d :
  (ltb d c0_15 = true /\ tier d = normal)
  \/ (ltb d c0_15 = false /\ ltb d c0_3 = true /\ tier d = minor)
  \/ (ltb d c0_15 = false /\ ltb d c0_3 = false /\ ltb d c0_6 = true /\ tier d = moderate)
  \/ (ltb d c0_15 = false /\ ltb d c0_3 = false /\ ltb d c0_6 = false /\ tier d = severe).
Proof.
  unfold tier.
  destruct (ltb d c0_15); [by left|]. right.
  destruct (ltb d c0_3); [by left|]. right.
  destruct (ltb d c0_6); [by left|]. by right.
Qed.

Lemma thresholds_ordered d :
  (ltb d c0_15 = true -> ltb d c0_3 = true)
  /\ (ltb d c0_3 = true -> ltb d c0_6 = true).
Proof. split; apply ltb_trans_finite; left; reflexivity. Qed.

(** ** Rounding to the format *)

Section Rounding.

Lemma digits2_pos_bound (m : positive) :
  2 ^ (Zpos (digits2_pos m) - 1) <= Zpos m < 2 ^ Zpos (digits2_pos m).
Proof.
  induction m as [m IH|m IH|]; simpl digits2_pos; [| |simpl; lia].
  - rewrite Pos2Z.inj_succ.
    replace (Z.succ (Zpos (digits2_pos m)) - 1) with (Zpos (digits2_pos m) - 1 + 1) by lia.
    rewrite Z.pow_succ_r, Z.pow_add_r by lia. lia.
  - rewrite Pos2Z.inj_succ.
    replace (Z.succ (Zpos (digits2_pos m)) - 1) with (Zpos (digits2_pos m) - 1 + 1) by lia.
    rewrite Z.pow_succ_r, Z.pow_add_r by lia. lia.
Qed.

Lemma Zdigits2_bound (m : Z) : 0 <= m -> m < 2 ^ Zdigits2 m /\ 0 <= Zdigits2 m.
Proof.
  destruct m as [|m|m]; simpl; [lia| |lia].
  intros _. pose proof (digits2_pos_bound m). lia.
Qed.

Lemma shr_1_m mrs : 0 <= shr_m mrs -> shr_m (shr_1 mrs) = shr_m mrs / 2.
Proof.
  destruct mrs as [m r s]. cbn [shr_m]. intros Hm. rewrite <- Z.div2_div.
  destruct m as [|[m|m|]|m]; try reflexivity. lia.
Qed.

Lemma iter_shr_1_m p : forall mrs,
  0 <= shr_m mrs -> shr_m (SpecFloat.iter_pos shr_1 p mrs) = shr_m mrs / 2 ^ Zpos p.
Proof.
  induction p as [p IH|p IH|]; intros mrs Hm; simpl SpecFloat.iter_pos.
  - assert (0 <= shr_m (shr_1 mrs)) as H1
      by (rewrite shr_1_m by done; apply Z.div_pos; lia).
    assert (0 <= shr_m (SpecFloat.iter_pos shr_1 p (shr_1 mrs))) as H2
      by (rewrite IH by done; apply Z.div_pos; lia).
    rewrite (IH _ H2), (IH _ H1), shr_1_m by done.
    rewrite !Z.div_div by lia. f_equal.
    replace (Zpos p~1) with (1 + Zpos p + Zpos p) by lia.
    rewrite !Z.pow_add_r by lia. ring.
  - assert (0 <= shr_m (SpecFloat.iter_pos shr_1 p mrs)) as H2
      by (rewrite IH by done; apply Z.div_pos; lia).
    rewrite (IH _ H2), (IH _ Hm).
    rewrite !Z.div_div by lia. f_equal.
    replace (Zpos p~0) with (Zpos p + Zpos p) by lia.
    rewrite !Z.pow_add_r by lia. ring.
  - by apply shr_1_m.
Qed.

(** What the shift to the exponent of the format leaves of a
    mantissa: a quotient by a power of two that fits the precision. *)
Lemma shr_fexp_spec m e l :
  0 <= m ->
  exists n, 0 <= n
    /\ shr_m (fst (shr_fexp prec emax m e l)) = m / 2 ^ n
    /\ snd (shr_fexp prec emax m e l) = e + n
    /\ shr_m (fst (shr_fexp prec emax m e l)) < 2 ^ 53.
Proof.
  intros Hm. unfold shr_fexp, shr.
  assert (shr_m (shr_record_of_loc m l) = m) as Hrec by (by destruct l as [|[]]).
  pose proof (Zdigits2_bound m Hm) as [Hd Hd0].
  set (d := Zdigits2 m) in *.
  assert (d - 53 <= fexp prec emax (d + e) - e) as Hn by (unfold fexp, prec; lia).
  destruct (fexp prec emax (d + e) - e) as [|n|n] eqn:Hshift.
  - exists 0. cbn [fst snd]. rewrite Hrec, Z.div_1_r.
    repeat split; try lia.
    apply Z.lt_le_trans with (2 ^ d); [lia|]. apply Z.pow_le_mono_r; lia.
  - exists (Zpos n). cbn [fst snd]. rewrite iter_shr_1_m by lia. rewrite Hrec.
    repeat split; try lia.
    apply Z.div_lt_upper_bound; [lia|]. rewrite <- Z.pow_add_r by lia.
    apply Z.lt_le_trans with (2 ^ d); [lia|].
    destruct (decide (d <= Zpos n + 53)); [apply Z.pow_le_mono_r; lia|lia].
  - exists 0. cbn [fst snd]. rewrite Hrec, Z.div_1_r.
    repeat split; try lia.
    apply Z.lt_le_trans with (2 ^ d); [lia|]. apply Z.pow_le_mono_r; lia.
Qed.

Lemma round_nearest_even_bound m l :
  m <= round_nearest_even m l <= m + 1.
Proof. destruct l as [|[]]; simpl; try lia. destruct (Z.even m); lia. Qed.

(** The result of rounding a non-negative mantissa is a zero, a finite
    number whose mantissa fits the precision or an infinity, of the
    sign asked for. *)
Lemma binary_round_aux_signed s m e l :
  0 <= m ->
  match binary_round_aux prec emax s m e l with
  | S754_zero s' | S754_infinity s' => s' = s
  | S754_finite s' q _ => s' = s /\ Zpos q < 2 ^ 53
  | S754_nan => False
  end.
Proof.
  intros Hm. unfold binary_round_aux.
  destruct (shr_fexp_spec m e l Hm) as (n & Hn & Hq0 & He' & _).
  destruct (shr_fexp prec emax m e l) as [mrs' e'].
  cbn [fst snd] in *.
  pose proof (round_nearest_even_bound (shr_m mrs') (loc_of_shr_record mrs')) as Hr.
  set (m1 := round_nearest_even _ _) in *.
  assert (0 <= m1) as Hm1 by (pose proof (Z.div_pos m (2 ^ n)); lia).
  destruct (shr_fexp_spec m1 e' loc_Exact Hm1) as (n1 & Hn1 & Hq & He'' & Hb).
  destruct (shr_fexp prec emax m1 e' loc_Exact) as [mrs'' e''].
  cbn [fst snd] in *.
  destruct (shr_m mrs'') as [|q|q] eqn:Hres.
  - reflexivity.
  - by destruct (e'' <=? emax - prec).
  - pose proof (Z.div_pos m1 (2 ^ n1)). lia.
Qed.

(** Rounding a value below one yields at most one. *)
Lemma binary_round_aux_below_one s m e l :
  0 < m -> e < 0 -> m < 2 ^ (- e) ->
  match binary_round_aux prec emax s m e l with
  | S754_zero _ => True
  | S754_finite _ q e'' => le_one q e''
  | _ => False
  end.
Proof.
  intros Hm He Hlt. unfold binary_round_aux.
  destruct (shr_fexp_spec m e l) as (n & Hn & Hq0 & He' & _); [lia|].
  assert (e + n <= 0) as Hen.
  { unfold shr_fexp, shr in He'.
    pose proof (Zdigits2_bound m ltac:(lia)) as [Hd Hd0].
    destruct m as [|m|m]; try lia. cbn [Zdigits2] in *.
    pose proof (digits2_pos_bound m) as Hdig.
    set (d := Zpos (digits2_pos m)) in *.
    assert (d + e <= 0) as Hde.
    { destruct (decide (d + e <= 0)); [done|]. exfalso.
      assert (2 ^ (- e) <= 2 ^ (d - 1)) by (apply Z.pow_le_mono_r; lia). lia. }
    unfold fexp, prec, emax, emin in He'.
    destruct (Z.max (d + e - 53) (3 - 1024 - 53) - e) eqn:Hshift; cbn [snd] in He'; lia. }
  destruct (shr_fexp prec emax m e l) as [mrs' e'].
  cbn [fst snd] in *.
  pose proof (round_nearest_even_bound (shr_m mrs') (loc_of_shr_record mrs')) as Hr.
  set (m1 := round_nearest_even _ _) in *.
  assert (0 <= m / 2 ^ n) as Hq0nn by (apply Z.div_pos; lia).
  assert (m1 <= 2 ^ (- e')) as Hm1.
  { cut (m / 2 ^ n < 2 ^ (- e')); [lia|].
    apply Z.div_lt_upper_bound; [lia|].
    rewrite <- Z.pow_add_r by lia. replace (n + - e') with (- e) by lia. done. }
  destruct (shr_fexp_spec m1 e' loc_Exact) as (n1 & Hn1 & Hq & He'' & _); [lia|].
  destruct (shr_fexp prec emax m1 e' loc_Exact) as [mrs'' e''].
  cbn [fst snd] in *.
  destruct (shr_m mrs'') as [|q|q] eqn:Hres; [done| |].
  - assert (le_one q e'') as Hle.
    { unfold le_one. destruct (decide (0 <= e'')) as [Hpos|Hneg].
      - left. split; [done|].
        assert (Zpos q * 2 ^ n1 <= m1) as Hmul
          by (rewrite Hq; rewrite Z.mul_comm; apply Z.mul_div_le; lia).
        assert (2 ^ n1 = 2 ^ (- e') * 2 ^ e'') as Hpow
          by (rewrite <- Z.pow_add_r by lia; f_equal; lia).
        pose proof (Z.pow_pos_nonneg 2 (- e') ltac:(lia) ltac:(lia)).
        pose proof (Z.pow_pos_nonneg 2 e'' ltac:(lia) ltac:(lia)).
        rewrite Hpow in Hmul. nia.
      - right. split; [lia|].
        rewrite Hq. apply Z.div_le_upper_bound; [lia|].
        rewrite <- Z.pow_add_r by lia. replace (n1 + - e'') with (- e') by lia. done. }
    destruct (e'' <=? emax - prec) eqn:Hov; [done|].
    apply Z.leb_gt in Hov. unfold emax, prec in Hov.
    destruct Hle as [[? Hle]|[? _]]; [|lia].
    assert (2 ^ 1 <= 2 ^ e'') by (apply Z.pow_le_mono_r; lia). nia.
  - pose proof (Z.div_pos m1 (2 ^ n1)). lia.
Qed.

Lemma Zdigits2_lower (m : Z) : 0 < m -> 2 ^ (Zdigits2 m - 1) <= m.
Proof.
  destruct m as [|m|m]; try lia. intros _. cbn [Zdigits2].
  pose proof (digits2_pos_bound m). lia.
Qed.

Lemma shr_fexp_exponent m e l :
  snd (shr_fexp prec emax m e l) = Z.max e (fexp prec emax (Zdigits2 m + e)).
Proof.
  unfold shr_fexp, shr.
  destruct (fexp prec emax (Zdigits2 m + e) - e) eqn:Hshift; cbn [snd]; lia.
Qed.

(** Rounding a value below a number of the format yields at most that
    number. *)
Lemma binary_round_aux_below s m e l mc ec :
  0 < m -> e <= ec -> -1074 <= ec <= 971 -> Zpos mc < 2 ^ 53 ->
  m < Zpos mc * 2 ^ (ec - e) ->
  match binary_round_aux prec emax s m e l with
  | S754_zero _ => True
  | S754_finite _ q e'' => e'' <= ec /\ Zpos q <= Zpos mc * 2 ^ (ec - e'')
  | _ => False
  end.
Proof.
  intros Hm He Hec Hmc Hlt. unfold binary_round_aux.
  destruct (shr_fexp_spec m e l) as (n & Hn & Hq0 & He' & _); [lia|].
  pose proof (shr_fexp_exponent m e l) as Hexp.
  assert (forall k x, 0 < x -> x < 2 ^ 53 * 2 ^ k -> 0 <= k -> Zdigits2 x - 53 <= k) as Hdig.
  { intros k x Hx Hxk Hk. pose proof (Zdigits2_lower x Hx) as Hl.
    pose proof (Zdigits2_bound x ltac:(lia)) as [_ Hd0].
    destruct (decide (Zdigits2 x - 53 <= k)); [done|]. exfalso.
    assert (2 ^ (53 + k) <= 2 ^ (Zdigits2 x - 1)) by (apply Z.pow_le_mono_r; lia).
    rewrite Z.pow_add_r in * by lia. lia. }
  assert (snd (shr_fexp prec emax m e l) <= ec) as He'ec.
  { rewrite Hexp. unfold fexp, prec, emax, emin.
    pose proof (Hdig (ec - e) m Hm) as Hd.
    pose proof (Z.pow_pos_nonneg 2 (ec - e) ltac:(lia) ltac:(lia)).
    assert (m < 2 ^ 53 * 2 ^ (ec - e)) by nia.
    lia. }
  destruct (shr_fexp prec emax m e l) as [mrs' e'].
  cbn [fst snd] in *.
  pose proof (round_nearest_even_bound (shr_m mrs') (loc_of_shr_record mrs')) as Hr.
  set (m1 := round_nearest_even _ _) in *.
  assert (0 <= m / 2 ^ n) as Hq0nn by (apply Z.div_pos; lia).
  assert (m1 <= Zpos mc * 2 ^ (ec - e')) as Hm1.
  { cut (m / 2 ^ n < Zpos mc * 2 ^ (ec - e')); [lia|].
    apply Z.div_lt_upper_bound; [lia|].
    replace (2 ^ n * (Zpos mc * 2 ^ (ec - e'))) with (Zpos mc * (2 ^ (ec - e') * 2 ^ n)) by ring.
    rewrite <- Z.pow_add_r by lia. replace (ec - e' + n) with (ec - e) by lia. done. }
  destruct (shr_fexp_spec m1 e' loc_Exact) as (n1 & Hn1 & Hq & He'' & _); [lia|].
  pose proof (shr_fexp_exponent m1 e' loc_Exact) as Hexp1.
  assert (snd (shr_fexp prec emax m1 e' loc_Exact) <= ec) as He''ec.
  { rewrite Hexp1. unfold fexp, prec, emax, emin.
    destruct (decide (m1 = 0)) as [->|Hne]; [cbn [Zdigits2]; lia|].
    pose proof (Hdig (ec - e') m1 ltac:(lia)) as Hd.
    pose proof (Z.pow_pos_nonneg 2 (ec - e') ltac:(lia) ltac:(lia)).
    assert (m1 < 2 ^ 53 * 2 ^ (ec - e')) by nia.
    lia. }
  destruct (shr_fexp prec emax m1 e' loc_Exact) as [mrs'' e''].
  cbn [fst snd] in *.
  destruct (shr_m mrs'') as [|q|q] eqn:Hres; [done| |].
  - assert (Zpos q <= Zpos mc * 2 ^ (ec - e'')) as Hle.
    { rewrite Hq. apply Z.div_le_upper_bound; [lia|].
      replace (2 ^ n1 * (Zpos mc * 2 ^ (ec - e''))) with (Zpos mc * (2 ^ (ec - e'') * 2 ^ n1))
        by ring.
      rewrite <- Z.pow_add_r by lia. replace (ec - e'' + n1) with (ec - e') by lia. done. }
    replace (e'' <=? emax - prec) with true by (symmetry; apply Z.leb_le; unfold emax, prec; lia).
    done.
  - pose proof (Z.div_pos m1 (2 ^ n1)). lia.
Qed.

End Rounding.

Section Arithmetic.

Lemma shl_iter m d : Zpos (Pos.iter xO m d) = Zpos m * 2 ^ Zpos d.
Proof.
  induction d as [|d IH] using Pos.peano_ind.
  - simpl. lia.
  - rewrite Pos.iter_succ, Pos2Z.inj_xO, IH, Pos2Z.inj_succ, Z.pow_succ_r by lia. ring.
Qed.

Lemma shl_align_spec m e e' :
  snd (shl_align m e e') = Z.min e e'
  /\ Zpos (fst (shl_align m e e')) = Zpos m * 2 ^ (e - Z.min e e').
Proof.
  unfold shl_align. destruct (e' - e) as [|d|d] eqn:Hd; cbn [fst snd].
  - replace (Z.min e e') with e by lia. rewrite Z.sub_diag. simpl. lia.
  - replace (Z.min e e') with e by lia. rewrite Z.sub_diag. simpl. lia.
  - replace (Z.min e e') with e' by lia. rewrite shl_iter.
    replace (e - e') with (Zpos d) by lia. done.
Qed.

Lemma binary_round_signed s m e :
  match binary_round prec emax s m e with
  | S754_zero s' | S754_infinity s' => s' = s
  | S754_finite s' q _ => s' = s /\ Zpos q < 2 ^ 53
  | S754_nan => False
  end.
Proof.
  unfold binary_round. destruct (shl_align _ _ _) as [mz ez].
  by apply binary_round_aux_signed.
Qed.

Lemma binary_round_below_one s m e :
  e < 0 -> Zpos m < 2 ^ (- e) ->
  match binary_round prec emax s m e with
  | S754_zero _ => True
  | S754_finite _ q e'' => le_one q e''
  | _ => False
  end.
Proof.
  intros He Hm. unfold binary_round.
  pose proof (shl_align_spec m e (fexp prec emax (Zpos (digits2_pos m) + e))) as [H1 H2].
  destruct (shl_align _ _ _) as [mz ez]. cbn [fst snd] in *.
  apply binary_round_aux_below_one; [lia|lia|].
  rewrite H2. subst ez.
  set (k := Z.min e _) in *.
  replace (- k) with ((- e) + (e - k)) by lia.
  rewrite Z.pow_add_r by lia.
  apply Z.mul_lt_mono_pos_r; [apply Z.pow_pos_nonneg; lia|done].
Qed.

Lemma mul_square x : is_finite x = true -> nonneg (mul x x).
Proof.
  destruct x as [sx|sx| |sx mx ex]; try done. intros _.
  unfold mul, SFmul. rewrite xorb_nilpotent.
  pose proof (binary_round_aux_signed false (Zpos (mx * mx)) (ex + ex) loc_Exact
                ltac:(lia)) as Hs.
  unfold nonneg. destruct (binary_round_aux _ _ _ _ _ _); cbn [nonneg]; tauto.
Qed.

Lemma mul_nonneg_finite x mc ec :
  nonneg x -> nonneg (mul x (S754_finite false mc ec)).
Proof.
  destruct x as [sx|sx| |sx mx ex]; unfold mul; cbn [SFmul nonneg]; try done.
  - by intros ->.
  - intros [-> _]. cbn [xorb].
    pose proof (binary_round_aux_signed false (Zpos (mx * mc)) (ex + ec) loc_Exact
                  ltac:(lia)) as Hs.
    destruct (binary_round_aux _ _ _ _ _ _); cbn [nonneg]; tauto.
Qed.

Lemma add_nonneg x y : nonneg x -> nonneg y -> nonneg (add x y).
Proof.
  destruct x as [sx|sx| |sx mx ex], y as [sy|sy| |sy my ey];
    unfold add; cbn [SFadd nonneg]; try done.
  - by destruct sx, sy.
  - by intros -> ->.
  - intros [-> _] [-> _]. cbn [cond_Zopp].
    set (a := fst (shl_align mx ex _)). set (b := fst (shl_align my ey _)).
    change (Zpos a + Zpos b) with (Zpos (a + b)). cbn [binary_normalize].
    pose proof (binary_round_signed false (a + b) (Z.min ex ey)) as Hs.
    destruct (binary_round _ _ _ _ _); cbn [nonneg]; tauto.
Qed.

Lemma sqrt_nonneg x : nonneg x -> nonneg (sqrt x).
Proof.
  destruct x as [sx|sx| |sx mx ex]; unfold sqrt; cbn [SFsqrt nonneg]; try done.
  - by intros ->.
  - intros [-> _]. unfold SFsqrt_core_binary.
    set (e' := Z.min _ _). set (m' := match ex - 2 * e' with Z0 => _ | _ => _ end).
    assert (0 <= m') as Hm'.
    { unfold m'. destruct (ex - 2 * e'); try lia. apply Z.shiftl_nonneg. lia. }
    pose proof (Z.sqrtrem_sqrt m') as Hq. pose proof (Z.sqrt_nonneg m') as Hnn.
    destruct (Z.sqrtrem m') as [q r]. cbn [fst] in Hq. subst q.
    pose proof (binary_round_aux_signed false (Z.sqrt m') e'
                  (if r =? 0 then loc_Exact else loc_Inexact (if r <=? Z.sqrt m' then Lt else Gt))
                  Hnn) as Hs.
    destruct (binary_round_aux _ _ _ _ _ _); cbn [nonneg]; tauto.
Qed.

Lemma div_nonneg_finite x mc ec :
  nonneg x -> nonneg (div x (S754_finite false mc ec)).
Proof.
  destruct x as [sx|sx| |sx mx ex]; unfold div; cbn [SFdiv nonneg]; try done.
  - by intros ->.
  - intros [-> _]. cbn [xorb]. unfold SFdiv_core_binary.
    set (e' := Z.min _ _).
    set (m' := match ex - ec - e' with Z0 => _ | _ => _ end).
    assert (0 <= m') as Hm'.
    { unfold m'. destruct (ex - ec - e'); try lia. apply Z.shiftl_nonneg. lia. }
    pose proof (Z.div_pos m' (Zpos mc) Hm' ltac:(lia)) as Hq.
    unfold Z.div in Hq.
    destruct (Z.div_eucl m' (Zpos mc)) as [q r]. cbn [fst] in Hq.
    pose proof (binary_round_aux_signed false q e' (new_location (Zpos mc) r) Hq) as Hs.
    destruct (binary_round_aux _ _ _ _ _ _); cbn [nonneg]; tauto.
Qed.

End Arithmetic.

(** ** Values of the unit interval *)

Section UnitInterval.

Lemma ltb_finite_pos m e mc ec :
  ltb (S754_finite false m e) (S754_finite false mc ec) = true ->
  e < ec \/ (e = ec /\ Zpos m < Zpos mc).
Proof.
  unfold ltb, SFltb, SFcompare.
  change (Pos.compare_cont Eq ?a ?b) with (Pos.compare a b).
  destruct (Z.compare_spec e ec); try done; [|lia].
  destruct (Pos.compare_spec m mc); try done. lia.
Qed.

Lemma ltb_one_below m e :
  Zpos m < 2 ^ 53 -> ltb (S754_finite false m e) c1_0 = true ->
  e < 0 /\ Zpos m < 2 ^ (- e).
Proof.
  intros Hm Hlt. apply (ltb_finite_pos m e 4503599627370496 (-52)) in Hlt.
  destruct Hlt as [He|[-> Hlt]].
  - split; [lia|].
    assert (2 ^ 53 <= 2 ^ (- e)) by (apply Z.pow_le_mono_r; lia). lia.
  - split; [lia|]. change (2 ^ (- (-52))) with 4503599627370496. lia.
Qed.

Lemma ltb_one_le_one m e :
  Zpos m < 2 ^ 53 -> ltb (S754_finite false m e) c1_0 = true -> le_one m e.
Proof. intros Hm Hlt. right. destruct (ltb_one_below m e Hm Hlt). lia. Qed.

(** Clamping at one. *)
Lemma Math_min_one x :
  nonneg x ->
  nonneg (Math_min c1_0 x) /\ unit_value (Math_min c1_0 x)
  /\ in_unit_interval (Math_min c1_0 x) = true.
Proof.
  assert (le_one 4503599627370496 (-52)) as Hone by (right; split; [lia|reflexivity]).
  destruct x as [sx|sx| |sx mx ex]; cbn [nonneg]; try done.
  - intros ->. change (Math_min c1_0 (S754_infinity false)) with c1_0.
    split; [split; [done|lia]|]. split; [split|]; done.
  - intros [-> Hm]. unfold Math_min, c1_0. fold c1_0.
    destruct (ltb (S754_finite false mx ex) c1_0) eqn:Hlt.
    + split; [done|]. split; [split; [done|by apply ltb_one_le_one]|].
      unfold in_unit_interval. apply andb_true_iff. split; [reflexivity|].
      unfold ltb, SFltb in Hlt. unfold leb, SFleb.
      by destruct (SFcompare _ _) as [[]|].
    + unfold c1_0. split; [split; [done|lia]|]. split; [split|]; done.
Qed.

Lemma valid_mantissa s m e :
  valid (S754_finite s m e) = true -> Zpos m < 2 ^ 53.
Proof.
  unfold valid, valid_binary, bounded, canonical_mantissa, fexp, prec.
  intros [Hc _]%andb_true_iff. apply Z.eqb_eq in Hc.
  pose proof (digits2_pos_bound m) as [_ Hd].
  apply Z.lt_le_trans with (1 := Hd). apply Z.pow_le_mono_r; lia.
Qed.

Lemma random_draw_cases r :
  random_draw r ->
  (exists s, r = S754_zero s)
  \/ (exists m e, r = S754_finite false m e /\ Zpos m < 2 ^ 53
                   /\ e < 0 /\ Zpos m < 2 ^ (- e)).
Proof.
  intros (Hv & H0 & H1). destruct r as [s|s| |s m e]; try done.
  - left. by exists s.
  - by destruct s.
  - right. destruct s; [done|]. exists m, e.
    pose proof (valid_mantissa _ _ _ Hv). split; [done|]. split; [done|].
    by apply ltb_one_below.
Qed.

Lemma random_draw_nonneg r : random_draw r -> nonneg r.
Proof.
  intros [[s ->]|(m & e & -> & Hm & _)]%random_draw_cases; [done|]. by split.
Qed.

(** A draw scaled by a constant below one eighth stays within the unit
    interval. *)
Lemma mul_draw_unit r mc :
  random_draw r -> Zpos mc < 2 ^ 53 ->
  unit_value (mul r (S754_finite false mc (-56))).
Proof.
  intros [[s ->]|(m & e & -> & Hm & He & Hme)]%random_draw_cases Hc; [done|].
  unfold mul. cbn [SFmul xorb].
  pose proof (binary_round_aux_signed false (Zpos (m * mc)) (e + -56) loc_Exact
                ltac:(lia)) as Hs.
  assert (Zpos (m * mc) < 2 ^ (- (e + -56))) as Hlt.
  { replace (- (e + -56)) with (- e + 56) by lia. rewrite Z.pow_add_r by lia.
    rewrite Pos2Z.inj_mul.
    pose proof (Z.pow_pos_nonneg 2 (- e) ltac:(lia) ltac:(lia)).
    assert (Zpos mc < 2 ^ 56)
      by (assert (2 ^ 53 <= 2 ^ 56) by (apply Z.pow_le_mono_r; lia); lia).
    nia. }
  pose proof (binary_round_aux_below_one false (Zpos (m * mc)) (e + -56) loc_Exact
                ltac:(lia) ltac:(lia) Hlt) as Hb.
  destruct (binary_round_aux _ _ _ _ _ _); cbn [unit_value]; tauto.
Qed.

Lemma leb_finite_pos q e mc ec :
  e <= ec -> Zpos q <= Zpos mc * 2 ^ (ec - e) ->
  leb (S754_finite false q e) (S754_finite false mc ec) = true.
Proof.
  intros He Hq. unfold leb, SFleb, SFcompare.
  change (Pos.compare_cont Eq ?a ?b) with (Pos.compare a b).
  destruct (Z.compare_spec e ec) as [->| |]; [|done|lia].
  rewrite Z.sub_diag, Z.mul_1_r in Hq.
  destruct (Pos.compare_spec q mc); try done. lia.
Qed.

(** A draw scaled by a positive constant is at most the constant. *)
Lemma mul_draw_le r mc ec :
  random_draw r -> Zpos mc < 2 ^ 53 -> -1074 <= ec <= 971 ->
  leb (mul r (S754_finite false mc ec)) (S754_finite false mc ec) = true.
Proof.
  intros [[s ->]|(m & e & -> & Hm & He & Hme)]%random_draw_cases Hc Hec; [done|].
  unfold mul. cbn [SFmul xorb].
  pose proof (binary_round_aux_signed false (Zpos (m * mc)) (e + ec) loc_Exact
                ltac:(lia)) as Hs.
  assert (Zpos (m * mc) < Zpos mc * 2 ^ (ec - (e + ec))) as Hlt.
  { replace (ec - (e + ec)) with (- e) by lia. rewrite Pos2Z.inj_mul. nia. }
  pose proof (binary_round_aux_below false (Zpos (m * mc)) (e + ec) loc_Exact mc ec
                ltac:(lia) ltac:(lia) Hec Hc Hlt) as Hb.
  destruct (binary_round_aux _ _ _ _ _ _) as [s'|s'| |s' q e'']; try done.
  destruct Hs as [-> _]. destruct Hb as [He'' Hq]. by apply leb_finite_pos.
Qed.

End UnitInterval.

Section Rounding3.

Lemma le_one_aligned m e k :
  le_one m e -> k <= e -> k <= 0 -> Zpos m * 2 ^ (e - k) <= 2 ^ (- k).
Proof.
  intros [[He Hle]|[He Hle]] Hk Hk0.
  - replace (e - k) with (e + - k) by lia. rewrite Z.pow_add_r by lia.
    pose proof (Z.pow_pos_nonneg 2 (- k) ltac:(lia) ltac:(lia)). nia.
  - replace (- k) with (- e + (e - k)) by lia. rewrite Z.pow_add_r by lia.
    apply Z.mul_le_mono_nonneg_r; [apply Z.pow_nonneg; lia|done].
Qed.

(** One minus a value of the unit interval is a value of the unit
    interval. *)
Lemma sub_one_unit y : unit_value y -> unit_value (sub c1_0 y).
Proof.
  destruct y as [s|s| |s my ey]; cbn [unit_value]; try done.
  - intros _. unfold sub, c1_0. cbn [SFsub unit_value]. split; [done|].
    right. split; [lia|]. change (2 ^ (- (-52))) with 4503599627370496. lia.
  - intros [-> Hle]. unfold sub, c1_0. cbn [SFsub cond_Zopp].
    set (ez := Z.min (-52) ey).
    pose proof (shl_align_spec 4503599627370496 (-52) ez) as [_ Ha].
    pose proof (shl_align_spec my ey ez) as [_ Hb].
    replace (Z.min (-52) ez) with ez in Ha by lia.
    replace (Z.min ey ez) with ez in Hb by lia.
    set (a := fst (shl_align 4503599627370496 (-52) ez)) in *.
    set (b := fst (shl_align my ey ez)) in *.
    assert (Zpos a = 2 ^ (- ez)) as Ha'.
    { rewrite Ha. change 4503599627370496 with (2 ^ 52).
      rewrite <- Z.pow_add_r by lia. f_equal. lia. }
    pose proof (le_one_aligned my ey ez Hle ltac:(lia) ltac:(lia)) as Hba.
    rewrite <- Hb, <- Ha' in Hba.
    destruct (Zpos a - Zpos b) as [|p|p] eqn:HD; cbn [binary_normalize unit_value].
    + exact I.
    + pose proof (binary_round_signed false p ez) as Hs.
      pose proof (binary_round_below_one false p ez ltac:(lia) ltac:(lia)) as Hu.
      destruct (binary_round _ _ _ _ _); cbn [unit_value]; tauto.
    + lia.
Qed.

Lemma nearest_thousandth_unit m e :
  le_one m e ->
  at_least_1e21 m e = false /\ 0 <= nearest_thousandth m e <= 1000.
Proof.
  intros Hle. unfold at_least_1e21, nearest_thousandth.
  destruct e as [|e|k].
  - destruct Hle as [[_ Hle]|[? _]]; [|lia].
    split; [apply Z.leb_gt; lia|lia].
  - destruct Hle as [[_ Hle]|[? _]]; [|lia].
    pose proof (Z.pow_pos_nonneg 2 (Zpos e) ltac:(lia) ltac:(lia)).
    split; [apply Z.leb_gt; nia|nia].
  - destruct Hle as [[? _]|[_ Hle]]; [lia|].
    change (- Zneg k) with (Zpos k) in Hle.
    pose proof (Z.pow_pos_nonneg 2 (Zpos k) ltac:(lia) ltac:(lia)).
    split; [apply Z.leb_gt; nia|].
    rewrite Z.pow_add_r by lia. change (2 ^ 1) with 2.
    split.
    + apply Z.div_pos; lia.
    + cut ((2000 * Zpos m + 2 ^ Zpos k) / (2 ^ Zpos k * 2) < 1001); [lia|].
      apply Z.div_lt_upper_bound; lia.
Qed.

Lemma thousandths_in_unit_interval n :
  0 <= n <= 1000 -> in_unit_interval (parseFloat (FxDec false n)) = true.
Proof.
  intros Hn.
  assert (forallb (fun n => in_unit_interval (parseFloat (FxDec false n))) (seqZ 0 1001)
          = true) as Hall by (vm_compute; reflexivity).
  rewrite forallb_forall in Hall. apply Hall.
  apply list_elem_of_In, elem_of_seqZ. lia.
Qed.

(** Rounding a value of the unit interval to three decimals keeps it
    within the unit interval. *)
Lemma round3_unit x :
  unit_value x -> in_unit_interval (parseFloat (toFixed3 x)) = true.
Proof.
  destruct x as [s|s| |s m e]; cbn [unit_value]; try done.
  intros [-> Hle]. cbn [toFixed3].
  destruct (nearest_thousandth_unit m e Hle) as [-> Hn].
  by apply thousandths_in_unit_interval.
Qed.

End Rounding3.

Section ClassifierBounds.

Lemma positive_finite_nonneg c : positive_finite c -> nonneg c.
Proof. by destruct c as [| | |[] m e]. Qed.

Lemma mul_nonneg_const x c : nonneg x -> positive_finite c -> nonneg (mul x c).
Proof. destruct c as [| | |[] mc ec]; try done. intros Hx _. by apply mul_nonneg_finite. Qed.

Lemma div_nonneg_const x c : nonneg x -> positive_finite c -> nonneg (div x c).
Proof. destruct c as [| | |[] mc ec]; try done. intros Hx _. by apply div_nonneg_finite. Qed.

Lemma nonneg_leb x : nonneg x -> leb pzero x = true.
Proof. destruct x as [s|s| |s m e]; cbn [nonneg]; try done; by intros [-> _] || intros ->. Qed.

Context `{StringConversion}.

Lemma square_nonneg (data : object) k :
  (exists x, data !! k = Some (VNum x) /\ is_finite x = true) ->
  nonneg (js_mul (get data k) (get data k)).
Proof.
  intros (x & Hx & Hfin). unfold get, js_mul. rewrite Hx. by apply mul_square.
Qed.

Lemma degradation_bounds (data : object) :
  finite_axes data ->
  nonneg (accel_mag data) /\ nonneg (gyro_mag data)
  /\ nonneg (degradation data) /\ unit_value (degradation data)
  /\ in_unit_interval (degradation data) = true.
Proof.
  intros Hfin. unfold finite_axes, axis_keys in Hfin.
  apply Forall_cons in Hfin as [Hax Hfin]. apply Forall_cons in Hfin as [Hay Hfin].
  apply Forall_cons in Hfin as [Haz Hfin]. apply Forall_cons in Hfin as [Hgx Hfin].
  apply Forall_cons in Hfin as [Hgy Hfin]. apply Forall_cons in Hfin as [Hgz _].
  assert (nonneg (accel_mag data)) as Ha
    by (apply sqrt_nonneg, add_nonneg; [apply add_nonneg|]; by apply square_nonneg).
  assert (nonneg (gyro_mag data)) as Hg
    by (apply sqrt_nonneg, add_nonneg; [apply add_nonneg|]; by apply square_nonneg).
  split; [done|]. split; [done|].
  apply Math_min_one. unfold rawDegradation.
  apply div_nonneg_const; [|by vm_compute].
  apply add_nonneg; apply mul_nonneg_const; try done; by vm_compute.
Qed.

End ClassifierBounds.

(** ** Facts about the further parts of the code *)

Section BackendSnapshot.

Import Backend.
Context `{StringConversion}.

Lemma post_data_mail r st m :
  In m (mails (snd (post_data r st))) ->
  m = mailOptions (body r) (computePredictions (rnd1 r) (rnd2 r) (body r))
  /\ condition (computePredictions (rnd1 r) (rnd2 r) (body r)) = severe
  /\ now r - lastAlertTime st > ALERT_COOLDOWN_MS.
Proof.
  unfold post_data, post_data_begin.
  destruct (incomplete (body r)); [intros []|].
  destruct (is_severe _) eqn:Hs; [|intros []].
  apply is_severe_spec in Hs. cbn [lastAlertTime].
  destruct (Z.gtb_spec (now r - lastAlertTime st) ALERT_COOLDOWN_MS); [|intros []].
  simpl. intros [<-|[]]. repeat split; [done|lia].
Qed.

Lemma post_all_times rs : forall st t,
  In t (snd (post_all rs st)) -> exists r, In r rs /\ now r = t.
Proof.
  induction rs as [|r rs IH]; intros st t; simpl; [intros []|].
  destruct (post_data r st) as [st' o].
  specialize (IH st'). destruct (post_all rs st') as [st'' ts]. simpl in *.
  intros Hin. apply in_app_or in Hin as [Hin|Hin].
  - destruct (mails o); [destruct Hin|]. destruct Hin as [<-|[]]. eauto.
  - destruct (IH t Hin) as (q & ? & ?). eauto.
Qed.

Lemma spaced_span ts : forall last t b,
  spaced last (t :: ts) -> Forall (fun u => u <= b) (t :: ts) ->
  t + Z.of_nat (length ts) * (ALERT_COOLDOWN_MS + 1) <= b.
Proof.
  induction ts as [|u ts IH]; intros last t b Hsp Hb.
  - apply Forall_inv in Hb. simpl. lia.
  - destruct Hsp as [_ Hsp]. apply Forall_cons in Hb as [_ Hb].
    specialize (IH t u b Hsp Hb). destruct Hsp as [Hu _].
    rewrite length_cons, Nat2Z.inj_succ. unfold ALERT_COOLDOWN_MS in *. lia.
Qed.

End BackendSnapshot.

Section Signs.

Context `{StringConversion}.

Lemma mul_opp_opp x : mul (SFopp x) (SFopp x) = mul x x.
Proof. destruct x as [s|s| |s m e]; try reflexivity; by destruct s. Qed.

Lemma js_mul_mirrored (data data' : object) k :
  ToNumber (get data' k) = ToNumber (get data k)
  \/ ToNumber (get data' k) = SFopp (ToNumber (get data k)) ->
  js_mul (get data' k) (get data' k) = js_mul (get data k) (get data k).
Proof. unfold js_mul. intros [->| ->]; [done|apply mul_opp_opp]. Qed.

End Signs.

Section Order.

Lemma leb_ltb_trans a b mc ec :
  leb a b = true ->
  ltb b (S754_finite false mc ec) = true ->
  ltb a (S754_finite false mc ec) = true.
Proof.
  unfold leb, ltb, SFleb, SFltb.
  destruct a as [sa|sa| |sa ma ea], b as [sb|sb| |sb mb eb];
    try destruct sa; try destruct sb; simpl; try done.
  all: change (Pos.compare_cont Eq ?a ?b) with (Pos.compare a b).
  all: repeat match goal with
       | |- context [Z.compare ?x ?y] => destruct (Z.compare_spec x y); simpl
       | |- context [Pos.compare ?x ?y] => destruct (Pos.compare_spec x y); simpl
       end; try done; lia.
Qed.

End Order.

Section Percentages.

Lemma same_number_eq x y : same_number x y = true -> x = y.
Proof.
  destruct x as [a|a| |a m e], y as [b|b| |b m' e']; simpl; try done.
  - by intros ->%Bool.eqb_prop.
  - by intros ->%Bool.eqb_prop.
  - intros [[->%Bool.eqb_prop ->%Pos.eqb_eq]%andb_prop ->%Z.eqb_eq]%andb_prop. done.
Qed.

Lemma is_percentage_spec x :
  is_percentage x = true -> exists k, 0 <= k <= 100 /\ x = of_Z k.
Proof.
  unfold is_percentage. rewrite existsb_exists. intros (k & Hk & Heq).
  apply list_elem_of_In, elem_of_seqZ in Hk. apply same_number_eq in Heq.
  exists k. split; [lia|done].
Qed.

Lemma toFixed3_unit x :
  unit_value x -> exists n, 0 <= n <= 1000 /\ toFixed3 x = FxDec false n.
Proof.
  destruct x as [s|s| |s m e]; cbn [unit_value]; try done.
  - intros _. exists 0. split; [lia|done].
  - intros [-> Hle]. cbn [toFixed3].
    destruct (nearest_thousandth_unit m e Hle) as [-> Hn]. eauto.
Qed.

Lemma thousandths_meter n :
  0 <= n <= 1000 ->
  is_percentage (Math_round (mul (parseFloat (FxDec false n)) (of_Z 100))) = true.
Proof.
  intros Hn.
  assert (forallb (fun n => is_percentage
                              (Math_round (mul (parseFloat (FxDec false n)) (of_Z 100))))
            (seqZ 0 1001) = true) as Hall by (vm_compute; reflexivity).
  rewrite forallb_forall in Hall. apply Hall.
  apply list_elem_of_In, elem_of_seqZ. lia.
Qed.

End Percentages.

Section Abscissas.

Import Dashboard.

Lemma push_point_length {A} (v : A) prev :
  length (push_point v prev) = Nat.min 50 (S (length prev)).
Proof.
  unfold push_point. rewrite slice_last, length_drop, length_app. cbn [length]. lia.
Qed.

Lemma x_in_view index :
  (index < 50)%nat ->
  leb pzero (Graph.x index) && leb (Graph.x index) (of_Z 100) = true.
Proof.
  intros Hi.
  assert (forallb (fun i => leb pzero (Graph.x i) && leb (Graph.x i) (of_Z 100)) (seq 0 50)
          = true) as Hall by (vm_compute; reflexivity).
  rewrite forallb_forall in Hall. apply Hall, in_seq. lia.
Qed.

Lemma x_increases index :
  (S index < 50)%nat -> ltb (Graph.x index) (Graph.x (S index)) = true.
Proof.
  intros Hi.
  assert (forallb (fun i => ltb (Graph.x i) (Graph.x (S i))) (seq 0 49) = true) as Hall
    by (vm_compute; reflexivity).
  rewrite forallb_forall in Hall. apply Hall, in_seq. lia.
Qed.

Lemma xs_lookup {A} (data : list A) cur i v :
  Graph.xs data cur !! i = Some v ->
  v = Graph.x i /\ (i < length (Graph.displayData data cur))%nat.
Proof.
  unfold Graph.xs. rewrite list_lookup_imap.
  destruct (Graph.displayData data cur !! i) eqn:Hl; [|done].
  apply lookup_lt_Some in Hl. simpl. by intros [= <-].
Qed.

End Abscissas.

Section BridgeAlerts.

Import Bridge Alerts.

Lemma checkAndTriggerAlert_no_call data flag :
  is_string (get data "status") "norm" = false ->
  snd (checkAndTriggerAlert data flag) = false.
Proof.
  intros Hs. unfold checkAndTriggerAlert. rewrite Hs. simpl.
  by destruct (negb _ && flag).
Qed.

Lemma checkAndTriggerAlert_flag data :
  fst (checkAndTriggerAlert data false) = false.
Proof.
  unfold checkAndTriggerAlert.
  destruct (is_string _ "norm"); simpl; [done|]. by rewrite andb_false_r.
Qed.

Lemma simulation_status s :
  Simulation.status s = "critical" \/ Simulation.status s = "warning"
  \/ Simulation.status s = "normal".
Proof.
  unfold Simulation.status.
  destruct (_ || _ || _); [by left|]. destruct (_ || _ || _); [right; by left|].
  right. by right.
Qed.

Lemma simulation_reading_status t :
  get (Simulation.reading t) "status" = VStr (Simulation.status (Simulation.sample t)).
Proof. reflexivity. Qed.

Lemma simulation_never_norm t :
  is_string (get (Simulation.reading t) "status") "norm" = false.
Proof.
  rewrite simulation_reading_status. unfold is_string.
  by destruct (simulation_status (Simulation.sample t)) as [-> |[-> | ->]].
Qed.

End BridgeAlerts.

Section BridgeStreams.

Import Bridge.



End BridgeStreams.

Section Positive.

(** Rounding a positive value that is at least the smallest number of
    the format does not yield zero. *)
Lemma binary_round_aux_positive s m e l :
  0 < m -> -1073 <= Zdigits2 m + e ->
  match binary_round_aux prec emax s m e l with
  | S754_zero _ => False
  | _ => True
  end.
Proof.
  intros Hm Hde. unfold binary_round_aux.
  assert (forall x k, 0 < x -> 0 <= k -> k <= Zdigits2 x - 1 -> 1 <= x / 2 ^ k) as Hdiv.
  { intros x k Hx Hk Hkd. pose proof (Zdigits2_lower x Hx).
    assert (2 ^ k <= 2 ^ (Zdigits2 x - 1)) by (apply Z.pow_le_mono_r; lia).
    apply Z.div_le_lower_bound; lia. }
  assert (forall x, 0 < x -> 1 <= Zdigits2 x) as Hd1.
  { intros x Hx. pose proof (Zdigits2_bound x ltac:(lia)) as [Hb H0].
    destruct (decide (1 <= Zdigits2 x)); [done|].
    replace (Zdigits2 x) with 0 in Hb by lia. simpl in Hb. lia. }
  destruct (shr_fexp_spec m e l) as (n & Hn & Hq0 & He' & _); [lia|].
  pose proof (shr_fexp_exponent m e l) as Hexp.
  destruct (shr_fexp prec emax m e l) as [mrs' e'].
  cbn [fst snd] in *.
  unfold fexp, prec, emax, emin in Hexp.
  pose proof (Hd1 m Hm).
  pose proof (Hdiv m n Hm Hn ltac:(lia)) as Hq1.
  pose proof (round_nearest_even_bound (shr_m mrs') (loc_of_shr_record mrs')) as Hr.
  set (m1 := round_nearest_even _ _) in *.
  assert (0 < m1) as Hm1 by lia.
  destruct (shr_fexp_spec m1 e' loc_Exact) as (n1 & Hn1 & Hq & He'' & _); [lia|].
  pose proof (shr_fexp_exponent m1 e' loc_Exact) as Hexp1.
  destruct (shr_fexp prec emax m1 e' loc_Exact) as [mrs'' e''].
  cbn [fst snd] in *.
  unfold fexp, prec, emax, emin in Hexp1.
  pose proof (Hd1 m1 Hm1).
  pose proof (Hdiv m1 n1 Hm1 Hn1 ltac:(lia)) as Hq2.
  destruct (shr_m mrs'') as [|q|q]; [lia| |done].
  by destruct (e'' <=? emax - prec).
Qed.

Lemma valid_exponent s m e : valid (S754_finite s m e) = true -> -1074 <= e.
Proof.
  unfold valid, valid_binary, bounded, canonical_mantissa, fexp, prec, emax, emin.
  intros [Hc _]%andb_true_iff. apply Z.eqb_eq in Hc. lia.
Qed.

(** A draw scaled by a constant no smaller than [2^-52] is a finite
    number, and zero only if the draw is. *)
Lemma mul_draw_finite r mc ec :
  random_draw r -> 2 ^ 52 <= Zpos mc < 2 ^ 53 -> -52 <= ec <= 971 ->
  is_finite (mul r (S754_finite false mc ec)) = true
  /\ (ToBoolean (VNum (mul r (S754_finite false mc ec))) = false <-> leb r pzero = true).
Proof.
  intros Hr Hmc Hec.
  pose proof (mul_draw_le r mc ec Hr ltac:(lia) ltac:(lia)) as Hle.
  pose proof (mul_nonneg_finite r mc ec (random_draw_nonneg r Hr)) as Hnn.
  destruct Hr as (Hv & H0 & H1).
  destruct r as [s|s| |s m e]; try done; try (by destruct s).
  destruct s; [done|]. apply valid_exponent in Hv.
  - unfold mul in *. cbn [SFmul xorb] in *.
    pose proof (binary_round_aux_positive false (Zpos (m * mc)) (e + ec) loc_Exact
                  ltac:(lia)) as Hpos.
    assert (-1073 <= Zdigits2 (Zpos (m * mc)) + (e + ec)) as Hd.
    { pose proof (Zdigits2_bound (Zpos (m * mc)) ltac:(lia)) as [Hb Hb0].
      assert (2 ^ 52 <= Zpos (m * mc)) as Hbig by (rewrite Pos2Z.inj_mul; nia).
      destruct (decide (53 <= Zdigits2 (Zpos (m * mc)))); [lia|]. exfalso.
      assert (2 ^ Zdigits2 (Zpos (m * mc)) <= 2 ^ 52) by (apply Z.pow_le_mono_r; lia).
      lia. }
    specialize (Hpos Hd).
    destruct (binary_round_aux _ _ _ _ _ _) as [s'|s'| |s' q e''];
      cbn [nonneg] in Hnn; [done|by subst s'|done|].
    split; [done|]. by split.
Qed.

End Positive.

Section Ports.

Import SerialPorts.
Context `{LowerCase}.

Lemma filter_no_match {A} (f : A -> bool) l :
  List.filter f l = [] -> Forall (fun a => f a = false) l.
Proof.
  induction l as [|a l IH]; simpl; [constructor|].
  destruct (f a) eqn:Hf; [done|]. intros Hl. constructor; auto.
Qed.

Lemma filter_first_match {A} (f : A -> bool) l a rest :
  List.filter f l = a :: rest ->
  exists before after, l = before ++ a :: after
                       /\ Forall (fun b => f b = false) before /\ f a = true.
Proof.
  induction l as [|b l IH]; simpl; [done|].
  destruct (f b) eqn:Hf.
  - intros [= -> _]. exists [], l. by repeat split.
  - intros (before & after & -> & Hb & Ha)%IH.
    exists (b :: before), after. repeat split; [|done]. by constructor.
Qed.

Lemma filter_skips {A} (f : A -> bool) before a after :
  Forall (fun b => f b = false) before -> f a = true ->
  List.filter f (before ++ a :: after) = a :: List.filter f after.
Proof.
  intros Hb Ha. induction Hb as [|b before Hfb _ IH]; simpl.
  - by rewrite Ha.
  - by rewrite Hfb.
Qed.

Lemma filter_without_match {A} (f : A -> bool) l :
  Forall (fun a => f a = false) l -> List.filter f l = [].
Proof. induction 1 as [|a l Ha _ IH]; simpl; [done|]. by rewrite Ha. Qed.

Lemma find_path_Some ports portPath p :
  List.find (fun p => String.eqb (path p) portPath) ports = Some p ->
  In p ports /\ path p = portPath.
Proof. intros [? ?%String.eqb_eq]%find_some. done. Qed.

Lemma find_path_None ports portPath :
  List.find (fun p => String.eqb (path p) portPath) ports = None <->
  ~ In portPath (map path ports).
Proof.
  split.
  - intros Hn (p & Hp & Hin)%in_map_iff.
    pose proof (find_none _ _ Hn p Hin) as Hne. simpl in Hne.
    apply String.eqb_neq in Hne. done.
  - intros Hn. destruct (List.find _ ports) as [p|] eqn:Hf; [|done].
    apply find_path_Some in Hf as [Hin <-]. destruct Hn. by apply in_map.
Qed.

Lemma fallback_Some candidates ports portPath :
  fallback candidates ports = Some portPath ->
  exists earlier later, candidates = earlier ++ portPath :: later
    /\ Forall (fun c => ~ In c (map path ports)) earlier
    /\ In portPath (map path ports).
Proof.
  induction candidates as [|c candidates IH]; simpl; [done|].
  destruct (List.find _ ports) as [p|] eqn:Hf.
  - intros [= <-]. apply find_path_Some in Hf as [Hin <-].
    exists [], candidates. repeat split; [constructor|by apply in_map].
  - intros (earlier & later & -> & He & Hin)%IH.
    exists (c :: earlier), later. repeat split; [|done].
    constructor; [|done]. by apply find_path_None.
Qed.

Lemma fallback_None candidates ports :
  fallback candidates ports = None ->
  Forall (fun c => ~ In c (map path ports)) candidates.
Proof.
  induction candidates as [|c candidates IH]; simpl; [constructor|].
  destruct (List.find _ ports) as [p|] eqn:Hf; [done|].
  intros Hn. constructor; [by apply find_path_None|auto].
Qed.

Lemma fallback_first earlier portPath later ports :
  Forall (fun c => ~ In c (map path ports)) earlier ->
  In portPath (map path ports) ->
  fallback (earlier ++ portPath :: later) ports = Some portPath.
Proof.
  intros He Hin. induction He as [|c earlier Hc _ IH]; simpl.
  - destruct (List.find _ ports) as [p|] eqn:Hf; [done|].
    by apply find_path_None in Hf.
  - apply find_path_None in Hc. by rewrite Hc.
Qed.

End Ports.

Section Minutes.

Import History.

Lemma sensor_history_unfold now draw :
  sensor_history now draw = map (fun k => point now draw (19 - k)) (seq 0 20).
Proof. reflexivity. Qed.

End Minutes.

Section Mirrored.

Context `{StringConversion}.

Lemma degradation_mirrored (data data' : object) :
  Forall (fun k => ToNumber (get data' k) = ToNumber (get data k)
                   \/ ToNumber (get data' k) = SFopp (ToNumber (get data k))) axis_keys ->
  degradation data' = degradation data.
Proof.
  intros Hk. unfold axis_keys in Hk.
  repeat match goal with
         | H : Forall _ (_ :: _) |- _ =>
             apply Forall_cons in H as [?%js_mul_mirrored H]
         end.
  unfold degradation, rawDegradation, accel_mag, gyro_mag. cbv zeta. congruence.
Qed.

Lemma response_json_lookup st k :
  Polling.response_json st !! k
  = Backend.get_latest st !! k
    ≫= (fun w => match w with VUndefined => None | _ => Some (JSON_copy w) end).
Proof. unfold Polling.response_json. cbn [JSON_copy]. apply lookup_omap. Qed.

Lemma JSON_copy_finite x :
  is_finite x = true ->
  exists y, JSON_copy (VNum x) = VNum y /\ (y = x \/ y = SFopp x).
Proof.
  destruct x as [s|s| |s m e]; try done; intros _.
  - exists pzero. split; [done|]. destruct s; [by right|by left].
  - eexists. split; [done|]. by left.
Qed.

End Mirrored.

Section Rendering.

Import Dashboard.

Lemma JSON_copy_plain w : is_object w = false -> is_object (JSON_copy w) = false.
Proof. destruct w as [| |b|x|t|o]; try done. by destruct x. Qed.

Lemma push_point_converts v prev :
  converts v = true -> Forall (fun e => converts e = true) prev ->
  Forall (fun e => converts e = true) (push_point v prev).
Proof.
  intros Hv Hprev. unfold push_point. rewrite slice_last.
  apply Forall_drop, Forall_app. split; [done|by constructor].
Qed.

Lemma displayData_push_point {A} (v : A) prev cur :
  Graph.displayData (push_point v prev) cur = push_point v prev.
Proof. unfold Graph.displayData. rewrite push_point_length. by destruct (length prev). Qed.

Lemma channel_key_prediction c : channel_key c <> "prediction".
Proof. by destruct c. Qed.

Lemma response_json_finite st body pv k x :
  Backend.latestData st = Some (<["prediction" := pv]> body) ->
  k <> "prediction" ->
  body !! k = Some (VNum x) -> is_finite x = true ->
  exists y, get (Polling.response_json st) k = VNum y /\ (y = x \/ y = SFopp x).
Proof.
  intros Hl Hk Hx Hfx. unfold get. rewrite response_json_lookup.
  unfold Backend.get_latest. rewrite Hl, lookup_insert_ne by done.
  rewrite Hx. cbn [mbind option_bind].
  destruct (JSON_copy_finite x Hfx) as (y & Hy & Hyx).
  exists y. split; [|done].
  replace (match VNum x with VUndefined => None | _ => Some (JSON_copy (VNum x)) end)
    with (Some (JSON_copy (VNum x))) by done.
  by rewrite Hy.
Qed.

Lemma response_json_device_id st body pv :
  Backend.latestData st = Some (<["prediction" := pv]> body) ->
  is_object (get body "device_id") = false ->
  is_object (js_or (get (Polling.response_json st) "device_id")
               (VStr "esp32-bridge-1 (default)")) = false.
Proof.
  intros Hl Hd. unfold get at 1. rewrite response_json_lookup.
  unfold Backend.get_latest. rewrite Hl, lookup_insert_ne by done.
  unfold get in Hd. destruct (body !! "device_id") as [w|]; [|done].
  cbn [mbind option_bind].
  assert (is_object (JSON_copy w) = false) as Hw by by apply JSON_copy_plain.
  destruct w as [| |b|x|t|o]; try done; unfold js_or;
    match goal with |- context [ToBoolean ?a] => destruct (ToBoolean a) end; done.
Qed.

(** A poll of a backend whose latest reading holds eight finite graph
    values and a device id that is no object goes through the render. *)
Lemma requested_renders st body pv v :
  Backend.latestData st = Some (<["prediction" := pv]> body) ->
  finite_channels body ->
  is_object (get body "device_id") = false ->
  drawable (Polling.histories v) ->
  Polling.renders (Polling.requested st v) = true
  /\ drawable (Polling.histories (Polling.requested st v)).
Proof.
  intros Hl Hfin Hdev Hdraw.
  assert (forall c, In c Polling.channels ->
            Polling.is_number (get (Polling.response_json st) (channel_key c)) = true
            /\ Forall (fun e => converts e = true)
                 (history c (updateHistory (Polling.response_json st) (Polling.histories v))))
    as Hc.
  { intros c Hin.
    destruct (proj1 (List.Forall_forall _ _) Hfin c Hin) as (x & Hx & Hfx).
    destruct (response_json_finite st body pv _ x Hl (channel_key_prediction c) Hx Hfx)
      as (y & Hy & _).
    rewrite history_updateHistory, Hy. split; [done|].
    apply push_point_converts; [done|].
    by apply (proj1 (List.Forall_forall _ _) Hdraw c Hin). }
  split.
  - unfold Polling.renders, Polling.requested.
    cbn [Polling.sensorData Polling.histories].
    rewrite (response_json_device_id st body pv Hl Hdev), andb_true_r.
    apply forallb_forall. intros c Hin. destruct (Hc c Hin) as [Hn Hh].
    unfold Polling.graph_renders. rewrite Hn. cbn [andb].
    rewrite history_updateHistory, displayData_push_point.
    rewrite history_updateHistory in Hh.
    apply forallb_forall. intros e He.
    by apply (proj1 (List.Forall_forall _ _) Hh e He).
  - unfold drawable, Polling.requested. cbn [Polling.histories].
    apply List.Forall_forall. intros c Hin. by destruct (Hc c Hin).
Qed.

End Rendering.

(** * The claims *)



(** C2, at a reading that lacks [gz].  The guard lets it through: it is
    classified (as [severe], with a NaN score), stored as the latest
    value, and an alert mail is handed to the transporter. *)
Lemma C2_missing_gz_is_ingested :
  let r := request_at some_day (delete "gz" moving) in
  let st := fst (Backend.post_data (H := no_numeric_strings) r Backend.initial) in
  let o := snd (Backend.post_data (H := no_numeric_strings) r Backend.initial) in
  Backend.body r !! "gz" = None
  /\ (exists p, Backend.response o = Backend.Ok p
                /\ condition p = severe /\ degradation_score p = NaN
                /\ Backend.latestData st
                   = Some (<["prediction" := Backend.prediction_value p]> (Backend.body r)))
  /\ length (Backend.mails o) = 1%nat
  /\ Backend.lastAlertTime st = some_day.
Proof.
  intros r st o. split; [vm_compute; reflexivity|].
  split.
  - eexists. split; [vm_compute; reflexivity|].
    split; [reflexivity|]. split; [reflexivity|]. vm_compute. reflexivity.
  - split; vm_compute; reflexivity.
Qed.

(** C3. For a reading whose six axis values are finite numbers, however
    large, and for any two draws of [Math.random()], the three numbers
    [computePredictions] returns, [degradation_score], [forecast_30d]
    and [confidence], all lie between 0 and 1.  So does the clamped
    degradation before it is rounded to three decimals, the two
    magnitudes it is computed from being not negative; and the
    confidence is 1.0 minus a number between 0 and 0.08, rounded to
    three decimals. *)
Theorem C3_outputs_in_unit_interval `{StringConversion}
    (data : object) (rnd1 rnd2 : number) :
  finite_axes data ->
  random_draw rnd1 ->
  random_draw rnd2 ->
  let p := computePredictions rnd1 rnd2 data in
  in_unit_interval (degradation_score p) = true
  /\ in_unit_interval (forecast_30d p) = true
  /\ in_unit_interval (confidence p) = true
  /\ in_unit_interval (degradation data) = true
  /\ leb pzero (accel_mag data) = true
  /\ leb pzero (gyro_mag data) = true
  /\ confidence p = parseFloat (toFixed3 (sub c1_0 (mul rnd2 c0_08)))
  /\ leb pzero (mul rnd2 c0_08) = true
  /\ leb (mul rnd2 c0_08) c0_08 = true.
Proof.
  intros Hfin Hr1 Hr2 p.
  destruct (degradation_bounds data Hfin) as (Ha & Hg & Hd & Hu & Hi).
  subst p. cbn [computePredictions degradation_score forecast_30d confidence].
  split; [by apply round3_unit|].
  split.
  { apply round3_unit, Math_min_one, add_nonneg.
    - apply add_nonneg; [done|]. apply positive_finite_nonneg. by vm_compute.
    - apply mul_nonneg_const; [by apply random_draw_nonneg|by vm_compute]. }
  split.
  { apply round3_unit, sub_one_unit.
    apply (mul_draw_unit rnd2 5764607523034235 Hr2). by vm_compute. }
  split; [done|]. split; [by apply nonneg_leb|]. split; [by apply nonneg_leb|].
  split; [reflexivity|]. split.
  - apply nonneg_leb, mul_nonneg_const; [by apply random_draw_nonneg|by vm_compute].
  - apply (mul_draw_le rnd2 5764607523034235 (-56) Hr2); [by vm_compute|lia].
Qed.

(** Axis values so large that the accelerometer magnitude overflows to
    infinity: the score is clamped to one. *)
Lemma C3_outputs_in_unit_interval_witness :
  let p := computePredictions (H := no_numeric_strings) (lit 5 10) (lit 5 10) violent in
  accel_mag (H := no_numeric_strings) violent = S754_infinity false
  /\ degradation_score p = c1_0
  /\ in_unit_interval (degradation_score p) = true
  /\ in_unit_interval (forecast_30d p) = true
  /\ in_unit_interval (confidence p) = true.
Proof.
  intros p.
  destruct (C3_outputs_in_unit_interval (H := no_numeric_strings) violent (lit 5 10) (lit 5 10))
    as (H1 & H2 & H3 & _).
  - unfold finite_axes, axis_keys. repeat constructor; eexists; split; vm_compute; reflexivity.
  - repeat split; vm_compute; reflexivity.
  - repeat split; vm_compute; reflexivity.
  - split; [vm_compute; reflexivity|]. split; [vm_compute; reflexivity|].
    split; [exact H1|]. split; [exact H2|exact H3].
Defined.

(** C4. The tiers are the closed-open intervals cut at 0.15, 0.3 and 0.6
    of the degradation, a threshold value itself falling in the upper
    tier: below 0.15 normal, from 0.15 to below 0.3 minor, from 0.3 to
    below 0.6 moderate, from 0.6 on severe.  At exactly 0.15 the tier is
    minor and at 0.149999 normal; 0.3 is moderate and 0.6 severe.  The
    condition [computePredictions] reports is this tier of the clamped
    degradation. *)
Theorem C4_tier_boundaries (d : number) :
  is_nan d = false ->
  (tier d = normal <-> ltb d c0_15 = true)
  /\ (tier d = minor <-> leb c0_15 d = true /\ ltb d c0_3 = true)
  /\ (tier d = moderate <-> leb c0_3 d = true /\ ltb d c0_6 = true)
  /\ (tier d = severe <-> leb c0_6 d = true)
  /\ tier c0_15 = minor
  /\ tier (lit 149999 1000000) = normal
  /\ tier c0_3 = moderate
  /\ tier c0_6 = severe
  /\ (forall (H : StringConversion) rnd1 rnd2 data,
        condition (computePredictions rnd1 rnd2 data) = tier (degradation data)).
Proof.
  intros Hd.
  pose proof (ltb_false_leb d c0_15 Hd eq_refl) as H15.
  pose proof (ltb_false_leb d c0_3 Hd eq_refl) as H3.
  pose proof (ltb_false_leb d c0_6 Hd eq_refl) as H6.
  destruct (thresholds_ordered d) as [Ha Hb].
  repeat split; try reflexivity;
    destruct (tier_cases d) as [(?&?)|[(?&?&?)|[(?&?&?&?)|(?&?&?&?)]]];
    intuition (try congruence).
  all: try (apply H15; congruence); try (apply H3; congruence); try (apply H6; congruence).
Qed.

(** A reading whose degradation is 0.15 on the dot is minor. *)
Lemma C4_tier_boundaries_witness :
  degradation (H := no_numeric_strings) on_the_boundary = c0_15
  /\ tier (degradation (H := no_numeric_strings) on_the_boundary) = minor.
Proof.
  split; [vm_compute; reflexivity|].
  destruct (C4_tier_boundaries (degradation (H := no_numeric_strings) on_the_boundary))
    as (_ & Hminor & _).
  - vm_compute. reflexivity.
  - apply Hminor. split; vm_compute; reflexivity.
Defined.



(** C6. [GET /latest] answers with the "No data yet" message as long as
    no request has passed the guard; once a request has passed it, the
    answer is that request's body together with its prediction, the most
    recent such request winning: the body as it was sent, and under
    [prediction] an object of four properties, the degradation score,
    the condition as text, the forecast and the confidence that
    [computePredictions] returned for it (the axes of that request
    being values that convert without throwing, so that the handler
    gets as far as storing them).  On the bridge, a socket that
    connects after some values were published is sent one message at
    once, the value published last. *)
Theorem C6_latest_value `{StringConversion}
    (rs0 rs rs' : list Backend.Ingest) (r : Backend.Ingest) (st : Backend.State)
    (es : list Bridge.Event) (bst : Bridge.State) :
  Forall (fun q => Backend.incomplete (Backend.body q) = true) rs0 ->
  Backend.incomplete (Backend.body r) = false ->
  convertible_axes (Backend.body r) ->
  Forall (fun q => Backend.incomplete (Backend.body q) = true) rs' ->
  let p := computePredictions (Backend.rnd1 r) (Backend.rnd2 r) (Backend.body r) in
  let latest := Backend.get_latest (fst (Backend.post_all (rs ++ r :: rs') st)) in
  Backend.get_latest (fst (Backend.post_all rs0 Backend.initial))
  = {[ "message" := VStr "No data yet" ]}
  /\ latest
     = <["prediction" :=
           VObj (<["degradation_score" := VNum (degradation_score p)]>
               (<["condition" :=
                    VStr (match condition p with
                          | normal => "normal"
                          | minor => "minor"
                          | moderate => "moderate"
                          | severe => "severe"
                          end)]>
               (<["forecast_30d" := VNum (forecast_30d p)]>
               (<["confidence" := VNum (confidence p)]> ∅))))]>
       (Backend.body r)
  /\ (forall k, k <> "prediction" -> latest !! k = Backend.body r !! k)
  /\ List.last (Bridge.clients (Bridge.run (es ++ [Bridge.Connection]) bst))
       {| Bridge.readyState := Bridge.CLOSED; Bridge.received := [] |}
     = {| Bridge.readyState := Bridge.OPEN;
          Bridge.received :=
            [List.last (Bridge.published es) (Bridge.latestSensorData bst)] |}.
Proof.
  intros Hrs0 Hr _ Hrs' p latest.
  assert (latest = <["prediction" := Backend.prediction_value p]> (Backend.body r)) as Hl.
  { subst latest p. rewrite post_all_app. cbn [fst]. simpl.
    destruct (Backend.post_data r _) as [st1 o] eqn:Hp.
    rewrite post_all_rejected by done. cbn [fst].
    pose proof (post_data_accepted r (fst (Backend.post_all rs st)) Hr) as [_ Hl].
    rewrite Hp in Hl. simpl in Hl. unfold Backend.get_latest. by rewrite Hl. }
  split; [by rewrite post_all_rejected|].
  split; [exact Hl|].
  split; [by intros k Hk; rewrite Hl, lookup_insert_ne|].
  rewrite run_app. change (Bridge.run [Bridge.Connection] ?s) with (Bridge.on_connection s).
  by rewrite connection_receives_latest, run_latest.
Qed.

(** A rejected reading, then an accepted one, then a rejected one; and
    a socket that connects after five simulation ticks. *)
Lemma C6_latest_value_witness :
  let quiet := request_at some_day at_rest in
  let loud := request_at (some_day + 2000) shaking in
  let ticks := map (fun i => Bridge.SimulationTick (tick_data i)) (seqZ 1 5) in
  Backend.get_latest
    (fst (Backend.post_all (H := no_numeric_strings) [quiet] Backend.initial))
  = {[ "message" := VStr "No data yet" ]}
  /\ Backend.get_latest
       (fst (Backend.post_all (H := no_numeric_strings) [quiet; loud; quiet] Backend.initial))
     = <["prediction" :=
           VObj (<["degradation_score" := VNum (of_Z 1)]>
                (<["condition" := VStr "severe"]>
                (<["forecast_30d" := VNum (of_Z 1)]>
                (<["confidence" := VNum (lit 96 100)]> ∅))))]>
       shaking
  /\ Backend.get_latest
       (fst (Backend.post_all (H := no_numeric_strings) [quiet; loud; quiet] Backend.initial))
     !! "ax" = Some (VNum (of_Z 5))
  /\ List.last
       (Bridge.clients (Bridge.run (ticks ++ [Bridge.Connection]) (Bridge.initial some_day)))
       {| Bridge.readyState := Bridge.CLOSED; Bridge.received := [] |}
     = {| Bridge.readyState := Bridge.OPEN; Bridge.received := [tick_data 5] |}.
Proof.
  intros quiet loud ticks.
  destruct (C6_latest_value (H := no_numeric_strings)
              [quiet] [quiet] [quiet] loud Backend.initial ticks (Bridge.initial some_day))
    as (H1 & H2 & H3 & H4).
  - repeat constructor.
  - vm_compute. reflexivity.
  - unfold convertible_axes, axis_keys. repeat constructor.
  - repeat constructor.
  - split; [exact H1|].
    change [quiet; loud; quiet] with ([quiet] ++ loud :: [quiet]).
    split; [rewrite H2; vm_compute; reflexivity|].
    split; [rewrite (H3 "ax") by discriminate; vm_compute; reflexivity|exact H4].
Defined.

(** C7. Each channel of the dashboard keeps the last 50 values: whatever
    the histories held before, after 60 readings were fetched a
    channel's history is the channel's value in the last 50 of them, in
    arrival order, the values of the first 10 being gone; and no update
    leaves a history longer than 50. *)
Theorem C7_rolling_history (c : Dashboard.Channel) (h : Dashboard.Histories)
    (ds : list object) :
  length ds = 60%nat ->
  Dashboard.history c (Dashboard.updateHistory_all ds h)
  = (fun d => get d (Dashboard.channel_key c)) <$> drop 10 ds
  /\ (forall d h', (length (Dashboard.history c (Dashboard.updateHistory d h')) <= 50)%nat).
Proof.
  intros Hlen. split.
  - rewrite history_updateHistory_all, fmap_drop.
    set (vs := _ <$> ds).
    assert (length vs = 60%nat) as Hvs by (unfold vs; by rewrite length_fmap).
    clearbody vs. destruct vs as [|v vs]; [discriminate|].
    rewrite push_point_all_ne, slice_last, length_app.
    rewrite drop_app_ge by lia. f_equal. lia.
  - intros d h'. rewrite history_updateHistory. apply slice_last_length.
Qed.

(** Sixty readings with [ax] = 1..60 leave [ax] = 11..60. *)
Lemma C7_rolling_history_witness :
  length sixty_readings = 60%nat
  /\ Dashboard.axHistory (Dashboard.updateHistory_all sixty_readings Dashboard.no_history)
     = map (fun i => VNum (of_Z i)) (seqZ 11 50).
Proof.
  split; [reflexivity|].
  destruct (C7_rolling_history Dashboard.Ax Dashboard.no_history sixty_readings) as [H _].
  - reflexivity.
  - change (Dashboard.axHistory ?h) with (Dashboard.history Dashboard.Ax h).
    rewrite H. vm_compute. reflexivity.
Defined.




(** C9. A reading whose [ax], [ay] or [az] is falsy is answered with status
    400 and the error "Incomplete MPU data": nothing is logged, mailed or
    stored.  Both zeros are falsy, so a sensor at rest that reports zero
    on an accelerometer axis is never classified by the endpoint. *)
Theorem C9_zero_axis_rejected `{StringConversion}
    (r : Backend.Ingest) (st : Backend.State) :
  ToBoolean (get (Backend.body r) "ax") = false
  \/ ToBoolean (get (Backend.body r) "ay") = false
  \/ ToBoolean (get (Backend.body r) "az") = false ->
  Backend.post_data r st
  = (st, {| Backend.log := []; Backend.mails := [];
            Backend.response := Backend.BadRequest "Incomplete MPU data" |})
  /\ (forall s, ToBoolean (VNum (S754_zero s)) = false).
Proof.
  intros Hf. split; [|done].
  apply post_data_rejected. unfold Backend.incomplete.
  destruct Hf as [->|[->| ->]]; simpl; by rewrite ?orb_true_r.
Qed.

(** A sensor at rest with [ax] = 0. *)
Lemma C9_zero_axis_rejected_witness :
  Backend.post_data (H := no_numeric_strings) (request_at some_day at_rest) Backend.initial
  = (Backend.initial,
     {| Backend.log := []; Backend.mails := [];
        Backend.response := Backend.BadRequest "Incomplete MPU data" |}).
Proof.
  apply (C9_zero_axis_rejected (H := no_numeric_strings)).
  left. vm_compute. reflexivity.
Defined.

(** C10. A reading the guard lets through (truthy [ax], [ay], [az]) that
    lacks [gx], [gy] or [gz] is classified all the same: the gyroscope
    magnitude and the degradation are NaN, each of the three threshold
    comparisons is false, the tier is [severe], the reported score is
    NaN, and the request is answered with that prediction, not with an
    error. *)
Theorem C10_missing_gyro_is_severe `{StringConversion}
    (r : Backend.Ingest) (st : Backend.State) :
  Backend.incomplete (Backend.body r) = false ->
  Backend.body r !! "gx" = None \/ Backend.body r !! "gy" = None
    \/ Backend.body r !! "gz" = None ->
  let p := computePredictions (Backend.rnd1 r) (Backend.rnd2 r) (Backend.body r) in
  gyro_mag (Backend.body r) = NaN
  /\ degradation (Backend.body r) = NaN
  /\ ltb (degradation (Backend.body r)) c0_15 = false
  /\ ltb (degradation (Backend.body r)) c0_3 = false
  /\ ltb (degradation (Backend.body r)) c0_6 = false
  /\ condition p = severe
  /\ degradation_score p = NaN
  /\ Backend.response (snd (Backend.post_data r st)) = Backend.Ok p.
Proof.
  intros Hi Hm p.
  pose proof (gyro_mag_missing _ Hm) as Hg.
  pose proof (degradation_missing _ Hg) as Hd.
  assert (condition p = severe) as Hs by (subst p; simpl; by rewrite Hd).
  rewrite Hd. repeat split; try done.
  - subst p. simpl. by rewrite Hd.
  - by apply post_data_accepted.
Qed.

(** A reading that is moderate with all six axes and severe, with a NaN
    score, once [gz] is left out. *)
Lemma C10_missing_gyro_is_severe_witness :
  let r := request_at some_day (delete "gz" moving) in
  condition (computePredictions (H := no_numeric_strings)
               (Backend.rnd1 r) (Backend.rnd2 r) (Backend.body r)) = severe
  /\ degradation_score (computePredictions (H := no_numeric_strings)
               (Backend.rnd1 r) (Backend.rnd2 r) (Backend.body r)) = NaN
  /\ condition (computePredictions (H := no_numeric_strings)
               (Backend.rnd1 r) (Backend.rnd2 r) moving) = moderate.
Proof.
  intros r.
  destruct (C10_missing_gyro_is_severe (H := no_numeric_strings) r Backend.initial)
    as (_ & _ & _ & _ & _ & Hs & Hn & _).
  - vm_compute. reflexivity.
  - right. right. vm_compute. reflexivity.
  - split; [exact Hs|]. split; [exact Hn|]. vm_compute. reflexivity.
Defined.

(** * Further properties *)

(** X1. A request that passes the guard, with axes and a device id
    that convert without throwing, is answered with the prediction the
    server computed, and [GET /latest] then shows that very prediction
    under [prediction], as an object of its four properties, whatever
    the body held there; every other property of the body is shown as it
    was sent.  A mail goes out for a severe prediction only and reports
    the numbers of that prediction; a body without a truthy [device_id]
    is reported as device "N/A". *)
Theorem X1_one_prediction_everywhere `{StringConversion}
    (r : Backend.Ingest) (st : Backend.State) :
  Backend.incomplete (Backend.body r) = false ->
  convertible_axes (Backend.body r) ->
  converts (get (Backend.body r) "device_id") = true ->
  let p := computePredictions (Backend.rnd1 r) (Backend.rnd2 r) (Backend.body r) in
  let st' := fst (Backend.post_data r st) in
  let o := snd (Backend.post_data r st) in
  Backend.response o = Backend.Ok p
  /\ Backend.get_latest st' !! "prediction"
     = Some (VObj (<["degradation_score" := VNum (degradation_score p)]>
                      (<["condition" :=
                           VStr (match condition p with
                                 | normal => "normal"
                                 | minor => "minor"
                                 | moderate => "moderate"
                                 | severe => "severe"
                                 end)]>
                      (<["forecast_30d" := VNum (forecast_30d p)]>
                      (<["confidence" := VNum (confidence p)]> ∅)))))
  /\ (forall k, k <> "prediction" -> Backend.get_latest st' !! k = Backend.body r !! k)
  /\ (forall m, In m (Backend.mails o) ->
        condition p = severe
        /\ Backend.mail_degradation_score m = degradation_score p
        /\ Backend.mail_forecast_30d m = forecast_30d p
        /\ Backend.mail_confidence m = confidence p
        /\ Backend.mail_accelerometer m
           = (get (Backend.body r) "ax", get (Backend.body r) "ay", get (Backend.body r) "az")
        /\ Backend.mail_gyroscope m
           = (get (Backend.body r) "gx", get (Backend.body r) "gy", get (Backend.body r) "gz")
        /\ Backend.mail_device_id m
           = (if ToBoolean (get (Backend.body r) "device_id")
              then get (Backend.body r) "device_id" else VStr "N/A")).
Proof.
  intros Hi _ _ p st' o. subst p st' o.
  destruct (post_data_accepted r st Hi) as [Hresp Hlatest].
  split; [exact Hresp|]. unfold Backend.get_latest. rewrite Hlatest.
  split; [by rewrite lookup_insert_eq|].
  split; [by intros k Hk; rewrite lookup_insert_ne|].
  intros m Hm. apply post_data_mail in Hm as (-> & Hsev & _).
  repeat split; done.
Qed.

(** A shaken reading sent without a device id and with a prediction of
    the client's own making. *)
Lemma X1_one_prediction_everywhere_witness :
  let sent := <["prediction" := VStr "all fine"]> (delete "device_id" shaking) in
  let r := request_at some_day sent in
  Backend.get_latest (fst (Backend.post_data (H := no_numeric_strings) r Backend.initial))
    !! "prediction"
  = Some (VObj (<["degradation_score" := VNum (of_Z 1)]>
               (<["condition" := VStr "severe"]>
               (<["forecast_30d" := VNum (of_Z 1)]>
               (<["confidence" := VNum (lit 96 100)]> ∅)))))
  /\ Backend.mails (snd (Backend.post_data (H := no_numeric_strings) r Backend.initial))
     = [ {| Backend.mail_device_id := VStr "N/A";
            Backend.mail_degradation_score := of_Z 1;
            Backend.mail_forecast_30d := of_Z 1;
            Backend.mail_confidence := lit 96 100;
            Backend.mail_accelerometer := (VNum (of_Z 5), VNum (of_Z 5), VNum (of_Z 5));
            Backend.mail_gyroscope := (VNum (of_Z 1), VNum (of_Z 1), VNum (of_Z 1)) |} ].
Proof.
  intros sent r.
  destruct (X1_one_prediction_everywhere (H := no_numeric_strings) r Backend.initial)
    as (_ & H2 & _).
  - vm_compute. reflexivity.
  - unfold convertible_axes, axis_keys. repeat constructor.
  - reflexivity.
  - split; [rewrite H2; vm_compute; reflexivity|]. vm_compute. reflexivity.
Defined.

(** X2. However many readings arrive between the times [a] and [b], and
    whatever they hold, at most [(b - a) / 60001 + 1] alert mails are
    handed to the transporter. *)
Theorem X2_alert_rate `{StringConversion}
    (rs : list Backend.Ingest) (st : Backend.State) (a b : Z) :
  a <= b ->
  Forall (fun r => a <= Backend.now r <= b) rs ->
  Z.of_nat (length (snd (Backend.post_all rs st)))
  <= (b - a) / (Backend.ALERT_COOLDOWN_MS + 1) + 1.
Proof.
  intros Hab Hrs.
  assert (Forall (fun t => a <= t <= b) (snd (Backend.post_all rs st))) as Hts.
  { apply List.Forall_forall. intros t Ht. apply post_all_times in Ht as (q & Hq & <-).
    by apply (proj1 (List.Forall_forall _ _) Hrs). }
  destruct (post_all_spaced rs st) as [Hsp _].
  assert (0 <= (b - a) / (Backend.ALERT_COOLDOWN_MS + 1)) as H0.
  { apply Z.div_pos; unfold Backend.ALERT_COOLDOWN_MS; lia. }
  destruct (snd (Backend.post_all rs st)) as [|t ts]; [simpl; lia|].
  pose proof (spaced_span ts _ t b Hsp) as Hspan.
  assert (H1 : Forall (fun u => u <= b) (t :: ts)).
  { eapply Forall_impl; [exact Hts|]. simpl. lia. }
  specialize (Hspan H1). apply Forall_inv in Hts.
  rewrite length_cons, Nat2Z.inj_succ.
  assert (Z.of_nat (length ts) <= (b - a) / (Backend.ALERT_COOLDOWN_MS + 1)).
  { apply Z.div_le_lower_bound; unfold Backend.ALERT_COOLDOWN_MS in *; lia. }
  lia.
Qed.

(** A shaken reading every second for two minutes: two alerts, which
    is the bound. *)
Lemma X2_alert_rate_witness :
  let rs := map (fun i => request_at (some_day + 1000 * i) shaking) (seqZ 0 121) in
  snd (Backend.post_all (H := no_numeric_strings) rs Backend.initial)
  = [some_day; some_day + 61000]
  /\ Z.of_nat (length (snd (Backend.post_all (H := no_numeric_strings) rs Backend.initial)))
     <= 2.
Proof.
  intros rs. split; [vm_compute; reflexivity|].
  apply (X2_alert_rate (H := no_numeric_strings) rs Backend.initial some_day (some_day + 120000)).
  - vm_compute. congruence.
  - repeat constructor; vm_compute; congruence.
Defined.



(** X4. The tier never falls when the degradation grows: of two
    degradations, the larger one gets the same tier or a more severe
    one. *)
Theorem X4_tier_monotone (d1 d2 : number) :
  leb d1 d2 = true -> (rank (tier d1) <= rank (tier d2))%nat.
Proof.
  intros Hle.
  assert (ltb d2 c0_15 = true -> ltb d1 c0_15 = true) as H15
    by exact (leb_ltb_trans d1 d2 _ _ Hle).
  assert (ltb d2 c0_3 = true -> ltb d1 c0_3 = true) as H3
    by exact (leb_ltb_trans d1 d2 _ _ Hle).
  assert (ltb d2 c0_6 = true -> ltb d1 c0_6 = true) as H6
    by exact (leb_ltb_trans d1 d2 _ _ Hle).
  destruct (tier_cases d1) as [(?&->)|[(?&?&->)|[(?&?&?&->)|(?&?&?&->)]]];
    destruct (tier_cases d2) as [(?&->)|[(?&?&->)|[(?&?&?&->)|(?&?&?&->)]]];
    simpl; try lia; exfalso; intuition congruence.
Qed.

(** A degradation of 0.2 is minor, one of 0.5 moderate. *)
Lemma X4_tier_monotone_witness :
  (rank (tier (lit 2 10)) <= rank (tier (lit 5 10)))%nat.
Proof. apply X4_tier_monotone. vm_compute. reflexivity. Defined.

(** X5. For a reading whose six axis values are finite numbers, the
    width of the risk meter, [Math.round(degradation_score * 100)], is
    one of the integers 0, 1, ..., 100. *)
Theorem X5_risk_meter_percentage `{StringConversion}
    (data : object) (rnd1 rnd2 : number) :
  finite_axes data ->
  exists k, 0 <= k <= 100
            /\ Panel.meterPct (computePredictions rnd1 rnd2 data) = of_Z k.
Proof.
  intros Hfin.
  destruct (degradation_bounds data Hfin) as (_ & _ & _ & Hu & _).
  apply toFixed3_unit in Hu as (n & Hn & Hfix).
  apply is_percentage_spec.
  unfold Panel.meterPct, Panel.score, computePredictions. cbn [degradation_score].
  rewrite Hfix. by apply thousandths_meter.
Qed.

(** The reading whose degradation is 0.15 fills the meter to 15. *)
Lemma X5_risk_meter_percentage_witness :
  Panel.meterPct (computePredictions (H := no_numeric_strings) (lit 5 10) (lit 5 10)
                    on_the_boundary) = of_Z 15
  /\ exists k, 0 <= k <= 100
               /\ Panel.meterPct (computePredictions (H := no_numeric_strings)
                                    (lit 5 10) (lit 5 10) on_the_boundary) = of_Z k.
Proof.
  split; [vm_compute; reflexivity|].
  apply (X5_risk_meter_percentage (H := no_numeric_strings)).
  unfold finite_axes, axis_keys. repeat constructor; eexists; split; vm_compute; reflexivity.
Defined.

(** X6. The polyline of a graph stays inside the view box from left to
    right: for a history as [updateHistory] leaves it, whatever it held
    before, every abscissa lies between 0 and 100, each point lies to
    the right of the one before, and once the history is full the
    newest point sits on the right edge, at 100. *)
Theorem X6_polyline_within_view_box (c : Dashboard.Channel) (d : object)
    (h : Dashboard.Histories) (currentValue : value) :
  let pts := Graph.xs (Dashboard.history c (Dashboard.updateHistory d h)) currentValue in
  length pts = Nat.min 50 (S (length (Dashboard.history c h)))
  /\ Forall (fun v => leb pzero v && leb v (of_Z 100) = true) pts
  /\ (forall i a b, pts !! i = Some a -> pts !! S i = Some b -> ltb a b = true)
  /\ ((49 <= length (Dashboard.history c h))%nat -> List.last pts NaN = of_Z 100).
Proof.
  intros pts.
  assert (Graph.displayData (Dashboard.history c (Dashboard.updateHistory d h)) currentValue
          = Dashboard.history c (Dashboard.updateHistory d h)) as Hshown.
  { unfold Graph.displayData. rewrite history_updateHistory, push_point_length.
    by destruct (length _). }
  assert (length pts = Nat.min 50 (S (length (Dashboard.history c h)))) as Hlen.
  { unfold pts, Graph.xs. rewrite length_imap, Hshown, history_updateHistory.
    apply push_point_length. }
  split; [exact Hlen|]. split; [|split].
  - apply Forall_lookup. intros i v Hv. apply lookup_lt_Some in Hv as Hi.
    apply xs_lookup in Hv as [-> _]. apply x_in_view. lia.
  - intros i a b Ha Hb. apply lookup_lt_Some in Hb as Hi.
    apply xs_lookup in Ha as [-> _]. apply xs_lookup in Hb as [-> _].
    apply x_increases. lia.
  - intros Hfull. assert (length pts = 50%nat) as H50 by lia.
    rewrite <- (firstn_skipn 49 pts).
    assert (exists v, drop 49 pts = [v] /\ pts !! 49%nat = Some v) as (v & Hd & Hv).
    { destruct (pts !! 49%nat) as [v|] eqn:Hv.
      - exists v. split; [|done]. rewrite (drop_S _ _ _ Hv).
        by rewrite drop_ge by lia.
      - apply lookup_ge_None in Hv. lia. }
    change (skipn 49 pts) with (drop 49 pts). rewrite Hd, last_last.
    apply xs_lookup in Hv as [-> _]. vm_compute. reflexivity.
Qed.

(** X7. [sendCriticalAlert] is called for readings whose status is the
    text "norm" only: while the readings published carry any other
    status, "critical" included, no alert is ever requested, whatever
    the events and the state they start from. *)
Theorem X7_no_alert_without_norm (es : list Bridge.Event) (st : Bridge.State) :
  Forall (fun d => Bridge.is_string (get d "status") "norm" = false) (Bridge.published es) ->
  Alerts.alert_calls es st = 0%nat.
Proof.
  revert st. induction es as [|e es IH]; intros st Hes; [done|].
  cbn [Alerts.alert_calls].
  destruct e as [now jsonData|data|delivered| |j]; cbn [Bridge.published Alerts.calls] in *;
    [|apply Forall_cons in Hes as [Hd Hes];
      rewrite checkAndTriggerAlert_no_call by done; by apply IH
     |by apply IH..].
  destruct (Bridge.accepts jsonData); simpl in Hes |- *; [|by apply IH].
  apply Forall_cons in Hes as [Hd Hes].
  rewrite checkAndTriggerAlert_no_call by done. by apply IH.
Qed.

(** Three serial lines that report a critical status. *)
Lemma X7_no_alert_without_norm_witness :
  let line := <["sensors" := VObj ∅]> (<["timestamp" := VNum (of_Z 7)]>
              (<["status" := VStr "critical"]> ∅)) in
  let es := [Bridge.SerialData some_day line; Bridge.Connection;
             Bridge.SerialData (some_day + 2000) line;
             Bridge.SerialData (some_day + 4000) line] in
  length (Bridge.published es) = 3%nat
  /\ Alerts.alert_calls es (Bridge.initial some_day) = 0%nat.
Proof.
  intros line es. split; [reflexivity|].
  apply X7_no_alert_without_norm. repeat constructor.
Defined.

(** X8. In simulation mode no alert is ever requested: a tick reports
    one of the statuses "critical", "warning" and "normal", none of
    which calls [sendCriticalAlert], so a server that runs on simulated
    readings requests no alert and its alert flag stays unset, however
    high the simulated strain. *)
Theorem X8_simulation_never_alerts (ts : list Simulation.Tick) (boot : Z) :
  let es := map Simulation.event ts in
  Bridge.published es = map Simulation.reading ts
  /\ Forall (fun d => get d "status" = VStr "critical" \/ get d "status" = VStr "warning"
                      \/ get d "status" = VStr "normal") (Bridge.published es)
  /\ Alerts.alert_calls es (Bridge.initial boot) = 0%nat
  /\ Bridge.isCriticalAlertSent (Bridge.run es (Bridge.initial boot)) = false.
Proof.
  intros es. subst es.
  assert (Bridge.published (map Simulation.event ts) = map Simulation.reading ts) as Hp.
  { induction ts as [|t ts IH]; [done|]. simpl. by rewrite IH. }
  split; [exact Hp|]. rewrite Hp. clear Hp. split; [|split].
  - apply List.Forall_forall. intros d (t & <- & _)%in_map_iff.
    rewrite simulation_reading_status.
    destruct (simulation_status (Simulation.sample t)) as [-> |[-> | ->]]; auto.
  - generalize (Bridge.initial boot).
    induction ts as [|t ts IH]; intros st; [done|].
    simpl. rewrite checkAndTriggerAlert_no_call by apply simulation_never_norm.
    apply IH.
  - assert (Bridge.isCriticalAlertSent (Bridge.initial boot) = false) as Hf by done.
    revert Hf. generalize (Bridge.initial boot).
    induction ts as [|t ts IH]; intros st Hf; [done|].
    simpl. apply IH. simpl. rewrite Hf. apply checkAndTriggerAlert_flag.
Qed.



(** X10. [GET /api/sensor-data/history] answers with 20 entries, oldest
    first: entry [k] is the one the loop built in round [19 - k], each
    entry is stamped one minute after the one before it, and the last
    one carries the time of the request. *)
Theorem X10_history_minutes (now : Z) (draw : nat -> number) :
  let h := History.sensor_history now draw in
  length h = 20%nat
  /\ (forall k, (k < 20)%nat -> h !! k = Some (History.point now draw (19 - k)))
  /\ (forall k p q, h !! k = Some p -> h !! S k = Some q ->
        History.timestamp q = History.timestamp p + 60000)
  /\ List.last (map History.timestamp h) 0 = now.
Proof.
  intros h. subst h. rewrite sensor_history_unfold.
  assert (forall k p, map (fun k => History.point now draw (19 - k)) (seq 0 20) !! k = Some p ->
                      (k < 20)%nat /\ p = History.point now draw (19 - k)) as Hk.
  { intros k p Hp. apply lookup_lt_Some in Hp as Hlt.
    rewrite length_map, length_seq in Hlt. split; [done|].
    rewrite list_lookup_fmap, lookup_seq_lt in Hp by done. by injection Hp as <-. }
  split; [by rewrite length_map, length_seq|]. split; [|split].
  - intros k Hlt. by rewrite list_lookup_fmap, lookup_seq_lt.
  - intros k p q [_ ->]%Hk [Hlt ->]%Hk. cbn [History.point History.timestamp]. lia.
  - simpl. lia.
Qed.

(** X11. [findArduinoPort] answers with the path of a port that is
    listed, a port that either looks like an Arduino by its
    manufacturer or bears one of the names COM3 to COM8; and it answers
    [null] only when the listing fails or holds no such port. *)
Theorem X11_findArduinoPort_result `{LowerCase}
    (listing : option (list SerialPorts.PortInfo)) :
  match SerialPorts.findArduinoPort listing with
  | Some portPath =>
      exists ports port,
        listing = Some ports /\ In port ports /\ SerialPorts.path port = portPath
        /\ (SerialPorts.arduino_like port = true
            \/ In portPath SerialPorts.ARDUINO_PORTS)
  | None =>
      listing = None
      \/ exists ports,
           listing = Some ports
           /\ Forall (fun port => SerialPorts.arduino_like port = false
                                  /\ ~ In (SerialPorts.path port) SerialPorts.ARDUINO_PORTS)
                ports
  end.
Proof.
  destruct listing as [ports|]; [|by left]. cbn [SerialPorts.findArduinoPort].
  destruct (List.filter SerialPorts.arduino_like ports) as [|port rest] eqn:Hf.
  - apply filter_no_match in Hf.
    destruct (SerialPorts.fallback _ ports) as [portPath|] eqn:Hfb.
    + apply fallback_Some in Hfb as (earlier & later & Heq & _ & Hin).
      apply in_map_iff in Hin as (port & Hp & Hin).
      exists ports, port. repeat split; try done. right.
      rewrite Heq. apply in_or_app. right. by left.
    + apply fallback_None in Hfb. right. exists ports. split; [done|].
      apply List.Forall_forall. intros port Hin. split.
      * by apply (proj1 (List.Forall_forall _ _) Hf).
      * intros Hc. apply (proj1 (List.Forall_forall _ _) Hfb _ Hc). by apply in_map.
  - apply filter_first_match in Hf as (before & after & -> & _ & Hlike).
    exists (before ++ port :: after), port. repeat split; [|by left].
    apply in_or_app. right. by left.
Qed.

(** X12. A port that looks like an Arduino wins over the common names:
    the answer is the first such port in the order of the listing, even
    if COM3 is listed as well, before it or after it. *)
Theorem X12_findArduinoPort_detection_first `{LowerCase}
    (before after : list SerialPorts.PortInfo) (port : SerialPorts.PortInfo) :
  Forall (fun p => SerialPorts.arduino_like p = false) before ->
  SerialPorts.arduino_like port = true ->
  SerialPorts.findArduinoPort (Some (before ++ port :: after))
  = Some (SerialPorts.path port).
Proof.
  intros Hbefore Hport. cbn [SerialPorts.findArduinoPort]. by rewrite filter_skips.
Qed.

(** The clone on COM12 is chosen although COM3 is listed first. *)
Lemma X12_findArduinoPort_detection_first_witness :
  SerialPorts.findArduinoPort (H := letters_only) (Some three_ports) = Some "COM12".
Proof.
  apply (X12_findArduinoPort_detection_first (H := letters_only)
           [ {| SerialPorts.path := "COM3"; SerialPorts.manufacturer := Some "Microsoft" |};
             {| SerialPorts.path := "COM9"; SerialPorts.manufacturer := None |} ]
           []
           {| SerialPorts.path := "COM12";
              SerialPorts.manufacturer := Some "wch.cn (CH340)" |}).
  - repeat constructor.
  - vm_compute. reflexivity.
Defined.

(** X13. When no listed port looks like an Arduino, the answer is the
    first of the names COM3, COM4, ..., COM8 that is listed, whatever
    the order of the listing. *)
Theorem X13_findArduinoPort_fallback_order `{LowerCase}
    (ports : list SerialPorts.PortInfo) (earlier later : list string) (portPath : string) :
  Forall (fun p => SerialPorts.arduino_like p = false) ports ->
  SerialPorts.ARDUINO_PORTS = earlier ++ portPath :: later ->
  Forall (fun c => ~ In c (map SerialPorts.path ports)) earlier ->
  In portPath (map SerialPorts.path ports) ->
  SerialPorts.findArduinoPort (Some ports) = Some portPath.
Proof.
  intros Hports Hnames Hearlier Hlisted. cbn [SerialPorts.findArduinoPort].
  rewrite filter_without_match by done. rewrite Hnames. by apply fallback_first.
Qed.

(** COM7 is listed before COM4, and COM4 is chosen. *)
Lemma X13_findArduinoPort_fallback_order_witness :
  SerialPorts.findArduinoPort (H := letters_only)
    (Some [ {| SerialPorts.path := "COM7"; SerialPorts.manufacturer := None |};
            {| SerialPorts.path := "COM1"; SerialPorts.manufacturer := Some "Intel" |};
            {| SerialPorts.path := "COM4"; SerialPorts.manufacturer := Some "Microsoft" |} ])
  = Some "COM4".
Proof.
  apply (X13_findArduinoPort_fallback_order (H := letters_only) _ ["COM3"]
           ["COM5"; "COM6"; "COM7"; "COM8"]).
  - repeat constructor.
  - reflexivity.
  - repeat constructor. vm_compute. intuition congruence.
  - vm_compute. tauto.
Defined.

(** X14. A reading of the simulator, whatever its draws, has six finite
    axis values, so that its degradation lies between 0 and 1; the
    backend turns it down exactly when the draw for [ax], [ay] or [az]
    was zero. *)
Theorem X14_simulated_reading `{StringConversion} (d : Simulator.Draws) :
  Forall random_draw
    [Simulator.d_ax d; Simulator.d_ay d; Simulator.d_az d;
     Simulator.d_gx d; Simulator.d_gy d; Simulator.d_gz d] ->
  finite_axes (Simulator.reading d)
  /\ in_unit_interval (degradation (Simulator.reading d)) = true
  /\ (Backend.incomplete (Simulator.reading d) = true
      <-> leb (Simulator.d_ax d) pzero = true
          \/ leb (Simulator.d_ay d) pzero = true
          \/ leb (Simulator.d_az d) pzero = true).
Proof.
  intros Hd.
  assert (forall r, random_draw r ->
            is_finite (mul r (of_Z 5)) = true
            /\ (ToBoolean (VNum (mul r (of_Z 5))) = false <-> leb r pzero = true)) as Hfive.
  { intros r Hr. apply (mul_draw_finite r 5629499534213120 (-50) Hr); lia. }
  assert (forall r, random_draw r -> is_finite (mul r (of_Z 2)) = true) as Htwo.
  { intros r Hr. apply (mul_draw_finite r 4503599627370496 (-51) Hr); lia. }
  apply Forall_cons in Hd as [Hax Hd]. apply Forall_cons in Hd as [Hay Hd].
  apply Forall_cons in Hd as [Haz Hd]. apply Forall_cons in Hd as [Hgx Hd].
  apply Forall_cons in Hd as [Hgy Hd]. apply Forall_cons in Hd as [Hgz _].
  assert (finite_axes (Simulator.reading d)) as Hfin.
  { unfold finite_axes, axis_keys.
    repeat (constructor;
            [eexists; split; [reflexivity|]; first [by apply Hfive|by apply Htwo]|]).
    constructor. }
  split; [exact Hfin|]. split; [by apply degradation_bounds|].
  unfold Backend.incomplete.
  change (get (Simulator.reading d) "ax") with (VNum (mul (Simulator.d_ax d) (of_Z 5))).
  change (get (Simulator.reading d) "ay") with (VNum (mul (Simulator.d_ay d) (of_Z 5))).
  change (get (Simulator.reading d) "az") with (VNum (mul (Simulator.d_az d) (of_Z 5))).
  rewrite !orb_true_iff, !negb_true_iff.
  destruct (Hfive _ Hax) as [_ Hx], (Hfive _ Hay) as [_ Hy], (Hfive _ Haz) as [_ Hz].
  tauto.
Qed.

(** Draws of one half give the axis values 2.5 and 1, a reading the
    backend accepts. *)
Lemma X14_simulated_reading_witness :
  Backend.incomplete (Simulator.reading even_draws) = false
  /\ in_unit_interval (degradation (H := no_numeric_strings) (Simulator.reading even_draws))
     = true.
Proof.
  destruct (X14_simulated_reading (H := no_numeric_strings) even_draws) as (_ & H2 & _).
  - repeat constructor; vm_compute; reflexivity.
  - split; [vm_compute; reflexivity|exact H2].
Defined.

(** X15. The dashboard and the backend agree on a reading: when the
    dashboard polls [GET /latest] after the backend accepted a reading
    whose eight graph values are finite numbers and whose device id is
    no object, its render goes through, and the prediction it then
    computes for itself has the condition and the degradation score of
    the prediction the backend answered with, whatever the random draws
    on either side and whatever the dashboard showed before. *)
Theorem X15_dashboard_agrees_with_backend `{StringConversion}
    (r : Backend.Ingest) (st : Backend.State) (v : Polling.View) (rnd1 rnd2 : number) :
  Backend.incomplete (Backend.body r) = false ->
  finite_channels (Backend.body r) ->
  is_object (get (Backend.body r) "device_id") = false ->
  drawable (Polling.histories v) ->
  let answered := computePredictions (Backend.rnd1 r) (Backend.rnd2 r) (Backend.body r) in
  Backend.response (snd (Backend.post_data r st)) = Backend.Ok answered
  /\ exists v',
       Polling.poll rnd1 rnd2 (fst (Backend.post_data r st)) v = Some v'
       /\ Polling.connectionStatus v' = Polling.connected
       /\ condition (Polling.predictionResult v') = condition answered
       /\ degradation_score (Polling.predictionResult v') = degradation_score answered
       /\ drawable (Polling.histories v').
Proof.
  intros Hi Hfin Hdev Hdraw answered. subst answered.
  destruct (post_data_accepted r st Hi) as [Hresp Hlatest].
  split; [exact Hresp|].
  destruct (requested_renders _ _ _ v Hlatest Hfin Hdev Hdraw) as [Hrender Hdraw'].
  eexists. unfold Polling.poll, Polling.fetchMpuData. cbv zeta. rewrite Hrender.
  split; [reflexivity|].
  unfold Polling.prediction_effect.
  cbn [Polling.requested Polling.connectionStatus Polling.sensorData
       Polling.predictionResult Polling.histories].
  split; [reflexivity|].
  assert (degradation (Polling.response_json (fst (Backend.post_data r st)))
          = degradation (Backend.body r)) as Hd.
  { apply degradation_mirrored. apply List.Forall_forall. intros k Hk.
    assert (exists c, In c Polling.channels /\ Dashboard.channel_key c = k) as (c & Hc & <-).
    { unfold axis_keys in Hk. simpl in Hk.
      destruct Hk as [<-|[<-|[<-|[<-|[<-|[<-|[]]]]]]];
        [exists Dashboard.Ax|exists Dashboard.Ay|exists Dashboard.Az
        |exists Dashboard.Gx|exists Dashboard.Gy|exists Dashboard.Gz];
        (split; [simpl; tauto|reflexivity]). }
    destruct (proj1 (List.Forall_forall _ _) Hfin c Hc) as (x & Hx & Hfx).
    destruct (response_json_finite _ _ _ _ x Hlatest (channel_key_prediction c) Hx Hfx)
      as (y & Hy & Hyx).
    rewrite Hy. unfold get at 1 2. rewrite Hx. exact Hyx. }
  unfold computePredictions. cbv zeta. cbn [condition degradation_score]. by rewrite Hd.
Qed.

(** The shaken reading, polled by a dashboard that was just mounted and
    whose draws differ from the backend's. *)
Lemma X15_dashboard_agrees_with_backend_witness :
  let r := request_at some_day shaking in
  let shown :=
    Polling.poll (H := no_numeric_strings) (lit 1 10) (lit 9 10)
      (fst (Backend.post_data (H := no_numeric_strings) r Backend.initial))
      (Polling.initial (H := no_numeric_strings) (lit 5 10) (lit 5 10)) in
  (fun v' => condition (Polling.predictionResult v')) <$> shown = Some severe
  /\ (fun v' => degradation_score (Polling.predictionResult v')) <$> shown = Some c1_0.
Proof.
  intros r shown.
  destruct (X15_dashboard_agrees_with_backend (H := no_numeric_strings) r Backend.initial
              (Polling.initial (H := no_numeric_strings) (lit 5 10) (lit 5 10))
              (lit 1 10) (lit 9 10)) as (_ & v' & Hv' & _ & H2 & H3 & _).
  - vm_compute. reflexivity.
  - unfold finite_channels, Polling.channels.
    repeat constructor; eexists; split; vm_compute; reflexivity.
  - vm_compute. reflexivity.
  - unfold drawable, Polling.channels. repeat constructor.
  - subst shown. rewrite Hv'. cbn [fmap option_fmap option_map]. rewrite H2, H3.
    split; vm_compute; reflexivity.
Defined.

(** X16. As long as the backend has accepted no reading, a poll takes
    the dashboard off the page: the answer "No data yet" arrives with
    status 200 and is stored as the sensor data, none of the graph
    values is a number any more, and the render that follows throws,
    so that no prediction is computed from it. *)
Theorem X16_no_data_breaks_the_render `{StringConversion}
    (rs : list Backend.Ingest) (v : Polling.View) (rnd1 rnd2 : number) :
  Forall (fun q => Backend.incomplete (Backend.body q) = true) rs ->
  let st := fst (Backend.post_all rs Backend.initial) in
  Polling.sensorData (Polling.requested st v) = {[ "message" := VStr "No data yet" ]}
  /\ Forall (fun c => Polling.is_number
                        (get (Polling.sensorData (Polling.requested st v))
                           (Dashboard.channel_key c)) = false) Polling.channels
  /\ Polling.renders (Polling.requested st v) = false
  /\ Polling.fetchMpuData st v = None
  /\ Polling.poll rnd1 rnd2 st v = None.
Proof.
  intros Hrs st. subst st. rewrite post_all_rejected by done. cbn [fst].
  assert (Polling.response_json Backend.initial = {[ "message" := VStr "No data yet" ]})
    as Hjson by (vm_compute; reflexivity).
  assert (Polling.renders (Polling.requested Backend.initial v) = false) as Hrender.
  { unfold Polling.renders, Polling.requested, Polling.channels.
    cbn [Polling.sensorData Polling.histories forallb]. rewrite Hjson.
    unfold Polling.graph_renders at 1.
    by replace (get {[ "message" := VStr "No data yet" ]} (Dashboard.channel_key Dashboard.Ax))
      with VUndefined by reflexivity. }
  split; [by cbn [Polling.requested Polling.sensorData]; rewrite Hjson|].
  split.
  { cbn [Polling.requested Polling.sensorData]. rewrite Hjson.
    unfold Polling.channels. repeat constructor. }
  split; [exact Hrender|].
  unfold Polling.poll, Polling.fetchMpuData. cbv zeta. by rewrite Hrender.
Qed.

(** A reading at rest is turned down; a dashboard that was just mounted
    polls after it. *)
Lemma X16_no_data_breaks_the_render_witness :
  Polling.poll (H := no_numeric_strings) (lit 5 10) (lit 5 10)
    (fst (Backend.post_all (H := no_numeric_strings) [request_at some_day at_rest]
            Backend.initial))
    (Polling.initial (H := no_numeric_strings) (lit 5 10) (lit 5 10))
  = None.
Proof.
  destruct (X16_no_data_breaks_the_render (H := no_numeric_strings)
              [request_at some_day at_rest]
              (Polling.initial (H := no_numeric_strings) (lit 5 10) (lit 5 10))
              (lit 5 10) (lit 5 10)) as (_ & _ & _ & _ & H5).
  - repeat constructor.
  - exact H5.
Defined.
